(** * pdf-to-pptx: the page-to-slide conversion of [src/main.tsx]

    A shallow embedding of [convertPdfToPptx] and [downloadPptx], the two
    functions of the [App] component that carry the conversion, and the
    properties of the specification that concern them.

    - [JsNumber]: the numbers of the program.  A JavaScript number is an
      IEEE 754 binary64 value; it is modelled as the rational it denotes,
      and every [/] and [*] of the source rounds its exact result to 53
      significant bits, ties to even, as the hardware does.  Exponents are
      unbounded (no overflow to infinity, no subnormals), integers such as
      the loop counter and the page count are exact, and a division by
      zero is never reached by the code.  [JsNumberFacts] compares the
      model with the binary64 arithmetic of the kernel on the computations
      of the program.
    - [Pptxgen]: the part of the [pptxgenjs] presentation object the source
      uses ([defineLayout], the [layout] setter, [addSlide], [addImage]).
      Its records keep the numbers as the program hands them over; what
      the library makes of them when it stores them or writes the file
      is not code of the repository and is not modelled.  The statements
      on sizes are made on the arguments of the calls ([Calls]).
    - [App]: the component state, the effects of a run and the functions
      of the source, written in a state-and-exception monad whose state is
      the component state together with the trace of effects.  What
      [pdfjs-dist], [pptxgenjs] and the browser answer is a parameter
      ([Env], [PDFDocumentProxy], [PDFPageProxy]).
    - [Summary] names what the statements speak of, [Scenario] gives
      documents to run the conversion on; the facts and the properties of
      the specification follow.
    - [Ui] has the other handlers of the component and what it renders.
      [run] is a run during which no handler is called; [Live] is the
      state a run ends in when handlers are called while the function is
      suspended at an [await]. *)

From Stdlib Require Import ZArith QArith Qround Qpower Qreduction Lia Lqa.
From Stdlib Require Import Floats Uint63.
From stdpp Require Import gmap strings list.

(** ** Numbers *)

Module JsNumber.
Local Open Scope Q_scope.

Definition number : Type := Q.

Definition pow2 (e : Z) : Q := 2 ^ e.

(** The binade of a positive rational: the [e] with [2^e <= x < 2^(e+1)]. *)
Definition binade (x : Q) : Z :=
  let e0 := (Z.log2 (Qnum x) - Z.log2 (Zpos (Qden x)))%Z in
  if Qle_bool (pow2 e0) x then e0 else (e0 - 1)%Z.

(** Rounding to the nearest integer, ties to the even one. *)
Definition roundHalfEven (q : Q) : Z :=
  let f := Qfloor q in
  match Qcompare (q - inject_Z f) (1 # 2) with
  | Lt => f
  | Gt => (f + 1)%Z
  | Eq => if Z.even f then f else (f + 1)%Z
  end.

(** Rounding of a positive rational to 53 significant bits: the significand
    [x / 2^(e-52)] lies in [[2^52, 2^53)] and is rounded to an integer. *)
Definition RNpos (x : Q) : Q :=
  let e := (binade x - 52)%Z in
  Qred (inject_Z (roundHalfEven (x / pow2 e)) * pow2 e).

(** Round to nearest, ties to even: the rounding of every binary64
    operation. *)
Definition RN (x : Q) : Q :=
  match Qnum x with
  | Z0 => 0
  | Zpos _ => RNpos x
  | Zneg _ => - RNpos (- x)
  end.

(** [x / y] and [x * y] on numbers. *)
Definition jsdiv (x y : number) : number := RN (x / y).
Definition jsmul (x y : number) : number := RN (x * y).

(** [Math.round]: the nearest integer, a tie going towards +infinity. *)
Definition Math_round (x : number) : Z := Qfloor (x + (1 # 2)).

(** The rational a finite binary64 value of the kernel denotes, used to
    compare the model with the kernel's own binary64 arithmetic. *)
Definition SF2Q (f : spec_float) : option Q :=
  match f with
  | S754_zero _ => Some 0
  | S754_finite s m e =>
      Some (Qred ((if s then - (1) else 1) * inject_Z (Zpos m) * pow2 e))
  | _ => None
  end.

(** An integer as a binary64 value of the kernel, and the test that such
    a value denotes a given rational. *)
Definition binary64_of_Z (z : Z) : float := PrimFloat.of_uint63 (Uint63.of_Z z).

Definition denotes (f : float) (q : Q) : bool :=
  match SF2Q (Prim2SF f) with
  | Some r => Qeq_bool r q
  | None => false
  end.

End JsNumber.

(** ** The presentation object of pptxgenjs

    The object by the calls the source makes on it.  A layout and the
    options of an image hold the numbers the program gives, unchanged:
    pptxgenjs converts them to EMU on its own terms (a layout is stored
    rounded to whole EMU; an image size of 100 or more is read as EMU
    already when the file is written), which is outside the source. *)

Module Pptxgen.
Import JsNumber.
Local Open Scope Q_scope.

(** A layout of the [LAYOUTS] table: the width and the height given for
    it, which the program computes in inches. *)
Record Layout := { l_width : number; l_height : number }.

(** The options of [slide.addImage], as they are handed over. *)
Record ImageProps :=
  { data : string; x : number; y : number; w : number; h : number }.

Record Slide := { objects : list ImageProps }.

(** [LAYOUTS] is the table of layouts by name, [layout] the name of the
    layout in use and [presLayout] its size: the size of every slide of
    the presentation.  [slides] is the ordered sequence of slides. *)
Record pptxgen :=
  { LAYOUTS : gmap string Layout;
    layout : string;
    presLayout : Layout;
    slides : list Slide }.

Definition LAYOUT_16x9 : Layout := {| l_width := 10; l_height := 5625 # 1000 |}.

(** [new pptxgen()]: the standard layouts, 16x9 in use, no slide. *)
Definition new_pptxgen : pptxgen :=
  {| LAYOUTS :=
       <["LAYOUT_4x3" := {| l_width := 10; l_height := 75 # 10 |}]>
       (<["LAYOUT_16x9" := LAYOUT_16x9]>
       (<["LAYOUT_16x10" := {| l_width := 10; l_height := 625 # 100 |}]>
       (<["LAYOUT_WIDE" := {| l_width := 40 # 3; l_height := 75 # 10 |}]> ∅)));
     layout := "LAYOUT_16x9";
     presLayout := LAYOUT_16x9;
     slides := [] |}.

(** [pptx.defineLayout({ name, width, height })]. *)
Definition defineLayout (name : string) (width height : number)
    (pptx : pptxgen) : pptxgen :=
  {| LAYOUTS := <[name := {| l_width := width; l_height := height |}]> (LAYOUTS pptx);
     layout := layout pptx;
     presLayout := presLayout pptx;
     slides := slides pptx |}.

(** [pptx.layout = name]: the setter looks the name up in [LAYOUTS]; an
    unknown name makes it throw (here: [None]). *)
Definition set_layout (name : string) (pptx : pptxgen) : option pptxgen :=
  match LAYOUTS pptx !! name with
  | Some l =>
      Some {| LAYOUTS := LAYOUTS pptx; layout := name; presLayout := l;
              slides := slides pptx |}
  | None => None
  end.

(** [pptx.addSlide()]: a new empty slide at the end of the sequence; the
    slide is handed back as its index. *)
Definition addSlide (pptx : pptxgen) : nat * pptxgen :=
  (length (slides pptx),
   {| LAYOUTS := LAYOUTS pptx; layout := layout pptx;
      presLayout := presLayout pptx;
      slides := slides pptx ++ [ {| objects := [] |} ] |}).

(** [slide.addImage(props)] on the slide of index [s]. *)
Definition addImage (s : nat) (props : ImageProps) (pptx : pptxgen) : pptxgen :=
  {| LAYOUTS := LAYOUTS pptx; layout := layout pptx;
     presLayout := presLayout pptx;
     slides :=
       alter (fun sl => {| objects := objects sl ++ [props] |}) s (slides pptx) |}.

End Pptxgen.

(** ** The component *)

Module App.
Import JsNumber Pptxgen.
Local Open Scope Z_scope.

(** What the [try] block can throw: the reason of a rejected promise of
    [pdfjs-dist] or [pptxgenjs], or an [Error] the source creates. *)
Inductive Thrown :=
| Rejected (reason : string)
| JsError (message : string).

(** The [PageViewport] of pdfjs, by the two fields the source reads. *)
Record Viewport := { width : number; height : number }.

(** The canvas element, by the two fields the source writes. *)
Record Canvas := { c_width : number; c_height : number }.

(** A page of the document: [getViewport({ scale })], and the outcome of
    [render({ canvasContext, viewport, canvas }).promise] followed by
    [canvas.toDataURL('image/png', 1.0)]: a rejection, or the data URL of
    the page's image. *)
Record PDFPageProxy :=
  { getViewport : number -> Viewport;
    render : Canvas -> Viewport -> Thrown + string }.

Record PDFDocumentProxy :=
  { numPages : Z;
    getPage : Z -> Thrown + PDFPageProxy }.

(** A file: its name, its declared type and its bytes, the result of
    [file.arrayBuffer()], which is taken to resolve. *)
Record File := { name : string; type : string; arrayBuffer : list Byte.byte }.

(** The blob [pptx.write] resolves with, by the presentation it holds. *)
Record Blob := { deck : pptxgen }.

(** What the libraries and the browser answer during a run:
    [pdfjs.getDocument({ data }).promise], whether
    [canvas.getContext('2d')] gives a context in the cycle of page [i],
    and whether [pptx.write] rejects. *)
Record Env :=
  { getDocument : list Byte.byte -> Thrown + PDFDocumentProxy;
    getContext2d : Z -> bool;
    write : pptxgen -> option Thrown }.

(** The state of the component ([useState]). *)
Record AppState :=
  { file : option File;
    isGenerating : bool;
    progress : Z;
    pptxBlob : option Blob;
    error : option string }.

(** The effects of a run, in program order: the calls of the state setters,
    of [console.error], and of the libraries. *)
Inductive Effect :=
| SetIsGenerating (b : bool)
| SetProgress (p : Z)
| SetError (e : option string)
| SetPptxBlob (b : Blob)
| ConsoleError (t : Thrown)
| GetDocument
| NewPptxgen
| GetPage (i : Z)
| Render (i : Z)
| DefineLayout (name : string) (width height : number)
| SetLayout (name : string)
| AddSlide
| AddImage (props : ImageProps)
| PptxWrite.

Record World := { state : AppState; trace : list Effect }.

(** What an effect does to the component state: only the setters change it. *)
Definition applyEffect (e : Effect) (s : AppState) : AppState :=
  match e with
  | SetIsGenerating b =>
      {| file := file s; isGenerating := b; progress := progress s;
         pptxBlob := pptxBlob s; error := error s |}
  | SetProgress p =>
      {| file := file s; isGenerating := isGenerating s; progress := p;
         pptxBlob := pptxBlob s; error := error s |}
  | SetError e =>
      {| file := file s; isGenerating := isGenerating s; progress := progress s;
         pptxBlob := pptxBlob s; error := e |}
  | SetPptxBlob b =>
      {| file := file s; isGenerating := isGenerating s; progress := progress s;
         pptxBlob := Some b; error := error s |}
  | _ => s
  end.

Definition emit (e : Effect) (w : World) : World :=
  {| state := applyEffect e (state w); trace := trace w ++ [e] |}.

(** *** The monad of the [async] function: state, and exceptions that keep
    the state reached when they are thrown. *)

Definition M (A : Type) : Type := World -> (Thrown + A) * World.

Definition ret {A : Type} (a : A) : M A := fun w => (inr a, w).

Definition throw {A : Type} (t : Thrown) : M A := fun w => (inl t, w).

Definition bind {A B : Type} (m : M A) (k : A -> M B) : M B :=
  fun w =>
    match m w with
    | (inr a, w') => k a w'
    | (inl t, w') => (inl t, w')
    end.

(** [try { body } catch (err) { handler }]. *)
Definition tryCatch {A : Type} (body : M A) (handler : Thrown -> M A) : M A :=
  fun w =>
    match body w with
    | (inl t, w') => handler t w'
    | (inr a, w') => (inr a, w')
    end.

Definition effect (e : Effect) : M unit := fun w => (inr tt, emit e w).

Notation "'let*' x ':=' m 'in' k" := (bind m (fun x => k))
  (at level 10, x binder, m at level 100, k at level 200).

(** [await] of a library promise: the call is recorded, then the promise
    resolves or its rejection is thrown. *)
Definition await {A : Type} (e : Effect) (r : Thrown + A) : M A :=
  let* _ := effect e in
  match r with inl t => throw t | inr a => ret a end.

Definition errorMessage : string :=
  "변환 중 오류가 발생했습니다. 다시 시도해주세요.".

Section Program.
Variable env : Env.

(** The body of the [for] loop (lines 69-110) for page [i]. *)
Definition pageCycle (pdf : PDFDocumentProxy) (numPages : Z) (i : Z)
    (pptx : pptxgen) : M pptxgen :=
  let* page := await (GetPage i) (getPage pdf i) in
  let viewport := getViewport page 2%Q in
  if negb (getContext2d env i)
  then throw (JsError "Canvas context could not be created")
  else
    let canvas := {| c_width := width viewport; c_height := height viewport |} in
    let* imgData := await (Render i) (render page canvas viewport) in
    let widthInInches := jsdiv (width viewport) (jsmul 72 2)%Q in
    let heightInInches := jsdiv (height viewport) (jsmul 72 2)%Q in
    let* pptx :=
      (if i =? 1
       then
         let* _ := effect (DefineLayout "PDF_SIZE" widthInInches heightInInches) in
         let* _ := effect (SetLayout "PDF_SIZE") in
         match set_layout "PDF_SIZE"
                 (defineLayout "PDF_SIZE" widthInInches heightInInches pptx)
         with
         | Some pptx' => ret pptx'
         | None => throw (JsError "UNKNOWN-LAYOUT")
         end
       else ret pptx) in
    let* _ := effect AddSlide in
    let (slide, pptx) := addSlide pptx in
    let props := {| data := imgData; x := 0%Q; y := 0%Q;
                    w := widthInInches; h := heightInInches |} in
    let* _ := effect (AddImage props) in
    let pptx := addImage slide props pptx in
    let* _ := effect (SetProgress
                (Math_round (jsmul (jsdiv (inject_Z i) (inject_Z numPages)) 100%Q))) in
    ret pptx.

(** [for (let i = 1; i <= numPages; i++)]: [n] is the number of iterations
    left, [Z.to_nat numPages] at the start. *)
Fixpoint pageLoop (pdf : PDFDocumentProxy) (numPages : Z) (n : nat) (i : Z)
    (pptx : pptxgen) : M pptxgen :=
  match n with
  | O => ret pptx
  | S n' =>
      let* pptx' := pageCycle pdf numPages i pptx in
      pageLoop pdf numPages n' (i + 1) pptx'
  end.

(** The [try] block (lines 62-115). *)
Definition tryBlock (f : File) : M unit :=
  let* pdf := await GetDocument (getDocument env (arrayBuffer f)) in
  let* _ := effect NewPptxgen in
  let pptx := new_pptxgen in
  let numPages := numPages pdf in
  let* pptx := pageLoop pdf numPages (Z.to_nat numPages) 1 pptx in
  let* output := await PptxWrite
                   (match write env pptx with
                    | Some t => inl t
                    | None => inr {| deck := pptx |}
                    end) in
  let* _ := effect (SetPptxBlob output) in
  effect (SetIsGenerating false).

(** The [catch] block (lines 116-120). *)
Definition catchBlock (err : Thrown) : M unit :=
  let* _ := effect (ConsoleError err) in
  let* _ := effect (SetError (Some errorMessage)) in
  effect (SetIsGenerating false).

Definition convertPdfToPptx : M unit :=
  fun w =>
    match file (state w) with
    | None => ret tt w
    | Some f =>
        (let* _ := effect (SetIsGenerating true) in
         let* _ := effect (SetProgress 0) in
         let* _ := effect (SetError None) in
         tryCatch (tryBlock f) catchBlock) w
    end.

(** A run of the conversion from a component state: the state and the
    trace it ends with, when no handler of the component is called while
    the function is suspended. *)
Definition run (s : AppState) : World :=
  snd (convertPdfToPptx {| state := s; trace := [] |}).

End Program.

(** [handleFileChange] and [onDrop], on the file chosen or dropped. *)
Definition handleFileChange (selectedFile : option File) (s : AppState) : AppState :=
  match selectedFile with
  | Some f =>
      if String.eqb (type f) "application/pdf"
      then {| file := Some f; isGenerating := isGenerating s; progress := 0;
              pptxBlob := None; error := None |}
      else applyEffect (SetError (Some "PDF 파일만 업로드 가능합니다.")) s
  | None => applyEffect (SetError (Some "PDF 파일만 업로드 가능합니다.")) s
  end.

(** [String.prototype.replace] with a string pattern: the first occurrence
    of [searchValue] is replaced, the rest of the string is kept. *)
Fixpoint stripPrefix (p s : string) : option string :=
  match p, s with
  | EmptyString, _ => Some s
  | String a p', String b s' =>
      if Ascii.eqb a b then stripPrefix p' s' else None
  | String _ _, EmptyString => None
  end.

Fixpoint replace (searchValue replaceValue s : string) : string :=
  match stripPrefix searchValue s with
  | Some rest => String.append replaceValue rest
  | None =>
      match s with
      | EmptyString => EmptyString
      | String c s' => String c (replace searchValue replaceValue s')
      end
  end.

(** [downloadPptx]: the name and the content of the download, when there
    is a blob and a file. *)
Definition downloadPptx (s : AppState) : option (string * Blob) :=
  match pptxBlob s, file s with
  | Some b, Some f => Some (replace ".pdf" ".pptx" (name f), b)
  | _, _ => None
  end.

End App.

(** ** Summaries of a run

    The functions below are not part of the program: they name what the
    statements about it speak of.  [pageOutcome] is what the libraries
    answer in the cycle of one page, [outcomes] the answers of the pages of
    a loop up to the first fault, [appendPage] and [cycleEffects] what one
    completed cycle does to the presentation and to the trace. *)

Module Summary.
Import JsNumber Pptxgen App.
Local Open Scope Z_scope.

(** [v / (72 * 2.0)]: pixels of a viewport at scale 2 to inches. *)
Definition inches (v : number) : number := jsdiv v (jsmul 72 2)%Q.

(** [Math.round((i / numPages) * 100)], in the arithmetic of the program. *)
Definition percent (numPages i : Z) : Z :=
  Math_round (jsmul (jsdiv (inject_Z i) (inject_Z numPages)) 100%Q).

(** The specification's [round(100 * i / N)], in exact arithmetic. *)
Definition percentExact (numPages i : Z) : Z :=
  Math_round (100 * inject_Z i / inject_Z numPages)%Q.

(** The specification's [round(100 * i / N)] read as the JavaScript
    expression [Math.round(100 * i / N)]. *)
Definition percentSpecJs (numPages i : Z) : Z :=
  Math_round (jsdiv (jsmul 100%Q (inject_Z i)) (inject_Z numPages)).

Definition canvasSize (vp : Viewport) : Layout :=
  {| l_width := inches (width vp); l_height := inches (height vp) |}.

Definition imageOf (vp : Viewport) (img : string) : ImageProps :=
  {| data := img; x := 0%Q; y := 0%Q;
     w := inches (width vp); h := inches (height vp) |}.

Definition slideOf (r : Viewport * string) : Slide :=
  {| objects := [imageOf (fst r) (snd r)] |}.

Definition emits (es : list Effect) (w : World) : World :=
  foldl (fun w e => emit e w) w es.

(** Readings of a trace: the values of the [setProgress] calls, what
    [console.error] was given, the blobs [setPptxBlob] was given, the pages
    asked of [getPage], the layouts defined, and the calls of
    [pptx.write], [new pptxgen()] and [addSlide]. *)
Definition progressCalls (tr : list Effect) : list Z :=
  omap (fun e => match e with SetProgress p => Some p | _ => None end) tr.

Definition consoleErrors (tr : list Effect) : list Thrown :=
  omap (fun e => match e with ConsoleError t => Some t | _ => None end) tr.

Definition blobsSet (tr : list Effect) : list Blob :=
  omap (fun e => match e with SetPptxBlob b => Some b | _ => None end) tr.

Definition pagesFetched (tr : list Effect) : list Z :=
  omap (fun e => match e with GetPage i => Some i | _ => None end) tr.

Definition layoutsDefined (tr : list Effect) : list (string * Layout) :=
  omap (fun e => match e with
                 | DefineLayout n wd ht => Some (n, {| l_width := wd; l_height := ht |})
                 | _ => None
                 end) tr.

(** The terminal outcome a trace shows: one blob handed to [setPptxBlob]
    and nothing thrown, or one value caught and no blob. *)
Inductive Outcome :=
| Completed (b : Blob)
| Failed (t : Thrown)
| NoOutcome.

Definition outcome (tr : list Effect) : Outcome :=
  match blobsSet tr, consoleErrors tr with
  | [b], [] => Completed b
  | [], [t] => Failed t
  | _, _ => NoOutcome
  end.

Definition writeCalls (tr : list Effect) : nat :=
  length (omap (fun e => match e with PptxWrite => Some tt | _ => None end) tr).

Definition decksCreated (tr : list Effect) : nat :=
  length (omap (fun e => match e with NewPptxgen => Some tt | _ => None end) tr).

Definition slidesAdded (tr : list Effect) : nat :=
  length (omap (fun e => match e with AddSlide => Some tt | _ => None end) tr).

(** The part of a trace that follows the call of [getDocument], and the
    progress values reported there: those of the page loop (line 110), as
    opposed to the reset of line 58, which comes before the document is
    loaded. *)
Fixpoint afterLoad (tr : list Effect) : list Effect :=
  match tr with
  | [] => []
  | GetDocument :: tr' => tr'
  | _ :: tr' => afterLoad tr'
  end.

Definition progressEvents (tr : list Effect) : list Z :=
  progressCalls (afterLoad tr).

Section Answers.
Variable env : Env.

(** The cycle of page [i] as the libraries answer it: the viewport at
    scale 2 and the image of the page, or what is thrown. *)
Definition pageOutcome (pdf : PDFDocumentProxy) (i : Z) : Thrown + (Viewport * string) :=
  match getPage pdf i with
  | inl t => inl t
  | inr page =>
      let viewport := getViewport page 2%Q in
      if getContext2d env i
      then
        match render page {| c_width := width viewport; c_height := height viewport |}
                viewport with
        | inl t => inl t
        | inr img => inr (viewport, img)
        end
      else inl (JsError "Canvas context could not be created")
  end.

(** The effects of a cycle that throws. *)
Definition faultEffects (pdf : PDFDocumentProxy) (i : Z) : list Effect :=
  match getPage pdf i with
  | inl _ => [GetPage i]
  | inr _ => if getContext2d env i then [GetPage i; Render i] else [GetPage i]
  end.

(** The answers of the [n] pages from page [i] on, up to the first one that
    throws, and what that one throws. *)
Fixpoint outcomes (pdf : PDFDocumentProxy) (n : nat) (i : Z)
    : list (Viewport * string) * option Thrown :=
  match n with
  | O => ([], None)
  | S n' =>
      match pageOutcome pdf i with
      | inl t => ([], Some t)
      | inr r => let (rs, t) := outcomes pdf n' (i + 1) in (r :: rs, t)
      end
  end.

End Answers.

(** The effects of a completed cycle. *)
Definition cycleEffects (numPages i : Z) (r : Viewport * string) : list Effect :=
  [GetPage i; Render i]
  ++ (if i =? 1
      then [DefineLayout "PDF_SIZE" (inches (width (fst r))) (inches (height (fst r)));
            SetLayout "PDF_SIZE"]
      else [])
  ++ [AddSlide; AddImage (imageOf (fst r) (snd r)); SetProgress (percent numPages i)].

Fixpoint loopEffects (numPages i : Z) (rs : list (Viewport * string)) : list Effect :=
  match rs with
  | [] => []
  | r :: rs' => cycleEffects numPages i r ++ loopEffects numPages (i + 1) rs'
  end.

(** The presentation after a completed cycle. *)
Definition appendPage (i : Z) (r : Viewport * string) (pptx : pptxgen) : pptxgen :=
  let pptx1 :=
    if i =? 1
    then {| LAYOUTS := <["PDF_SIZE" := canvasSize (fst r)]> (LAYOUTS pptx);
            layout := "PDF_SIZE";
            presLayout := canvasSize (fst r);
            slides := slides pptx |}
    else pptx in
  {| LAYOUTS := LAYOUTS pptx1; layout := layout pptx1;
     presLayout := presLayout pptx1;
     slides := slides pptx1 ++ [slideOf r] |}.

Fixpoint appendPages (i : Z) (rs : list (Viewport * string)) (pptx : pptxgen) : pptxgen :=
  match rs with
  | [] => pptx
  | r :: rs' => appendPages (i + 1) rs' (appendPage i r pptx)
  end.

(** [p] occurs in [stem] followed by [tail] at a position inside [stem]. *)
Fixpoint occursBefore (p stem tail : string) : bool :=
  match stem with
  | EmptyString => false
  | String c stem' =>
      match stripPrefix p (String.append stem tail) with
      | Some _ => true
      | None => occursBefore p stem' tail
      end
  end.

(** The effects that open every run, and those of the [catch] block. *)
Definition opening : list Effect :=
  [SetIsGenerating true; SetProgress 0; SetError None; GetDocument].

Definition failure (t : Thrown) : list Effect :=
  [ConsoleError t; SetError (Some errorMessage); SetIsGenerating false].

(** The effects that close a run whose document was loaded: the fault of
    the page loop, or the call of [write] and what follows it. *)
Definition closing (env : Env) (pdf : PDFDocumentProxy)
    (rs : list (Viewport * string)) (fault : option Thrown) : list Effect :=
  match fault with
  | Some t => faultEffects env pdf (1 + Z.of_nat (length rs)) ++ failure t
  | None =>
      PptxWrite ::
      match write env (appendPages 1 rs new_pptxgen) with
      | Some t => failure t
      | None =>
          [SetPptxBlob {| deck := appendPages 1 rs new_pptxgen |};
           SetIsGenerating false]
      end
  end.

End Summary.

(** ** Documents to run the conversion on *)

Module Scenario.
Import JsNumber Pptxgen App Summary.
Local Open Scope Z_scope.

(** A page of [wd] x [ht] points whose image is [img]: the viewport at a
    scale is the page size times the scale, and rendering succeeds. *)
Definition page (wd ht : number) (img : string) : PDFPageProxy :=
  {| getViewport := fun scale => {| width := jsmul wd scale; height := jsmul ht scale |};
     render := fun _ _ => inr img |}.

Definition letter (img : string) : PDFPageProxy := page 612%Q 792%Q img.

(** A document of [n] US Letter pages. *)
Definition letters (n : Z) : PDFDocumentProxy :=
  {| numPages := n; getPage := fun _ => inr (letter "data:image/png;base64,AAAA") |}.

(** The three-page document of the specification's scenario, each page
    with an image of its own. *)
Definition threeLetters : PDFDocumentProxy :=
  {| numPages := 3;
     getPage := fun i =>
       inr (letter (if i =? 1 then "png-1" else if i =? 2 then "png-2" else "png-3")) |}.



(** Three Letter pages, the second of which fails to render. *)
Definition secondPageBroken : PDFDocumentProxy :=
  {| numPages := 3;
     getPage := fun i =>
       inr (if i =? 2
            then {| getViewport := getViewport (letter "");
                    render := fun _ _ => inl (Rejected "RenderingCancelledException") |}
            else letter "png") |}.

(** A browser in which every buffer decodes to [pdf], a 2d context is
    always available and [write] resolves. *)
Definition browser (pdf : PDFDocumentProxy) : Env :=
  {| getDocument := fun _ => inr pdf;
     getContext2d := fun _ => true;
     write := fun _ => None |}.

(** A browser in which no buffer decodes. *)
Definition undecodable : Env :=
  {| getDocument := fun _ => inl (Rejected "InvalidPDFException");
     getContext2d := fun _ => true;
     write := fun _ => None |}.

Definition aFile (name : string) : File :=
  {| name := name; type := "application/pdf"; arrayBuffer := [] |}.

(** The first state of the component, and the state once a file is chosen. *)
Definition initial : AppState :=
  {| file := None; isGenerating := false; progress := 0;
     pptxBlob := None; error := None |}.

Definition chosen (name : string) : AppState :=
  handleFileChange (Some (aFile name)) initial.

(** The viewport of a Letter page at scale 2, and the blob of the
    three-page document. *)
Definition letterViewport : Viewport := {| width := 1224%Q; height := 1584%Q |}.





Definition threeLettersBlob : Blob :=
  {| deck := appendPages 1
       [(letterViewport, "png-1"); (letterViewport, "png-2"); (letterViewport, "png-3")]
       new_pptxgen |}.

End Scenario.

(** ** Facts on the numbers

    [RN] is monotone on the non-negative rationals, does not depend on the
    fraction that represents its argument, and keeps a number between the
    two powers of two around it. *)

Module JsNumberFacts.
Import JsNumber.
Local Open Scope Q_scope.

Lemma pow2_pos e : 0 < pow2 e.
Proof. apply Qpower_0_lt. reflexivity. Qed.

Lemma pow2_succ e : pow2 (e + 1) == 2 * pow2 e.
Proof.
  unfold pow2. rewrite Qpower_plus by discriminate. rewrite Qpower_1_r. ring.
Qed.

Lemma pow2_add a b : pow2 (a + b) == pow2 a * pow2 b.
Proof. unfold pow2. apply Qpower_plus. discriminate. Qed.

Lemma pow2_sub a b : pow2 (a - b) == pow2 a / pow2 b.
Proof. unfold pow2. apply Qpower_minus. discriminate. Qed.

Lemma pow2_Z a : (0 <= a)%Z -> pow2 a == inject_Z (2 ^ a).
Proof. intros H. unfold pow2. rewrite Zpower_Qpower by assumption. reflexivity. Qed.

Lemma pow2_le a b : (a <= b)%Z -> pow2 a <= pow2 b.
Proof. intros H. apply Qpower_le_compat_l; [assumption | discriminate]. Qed.

Lemma pow2_lt_inv a b : pow2 a < pow2 b -> (a < b)%Z.
Proof.
  intros H. destruct (Z_lt_le_dec a b) as [L|L]; [assumption|].
  apply pow2_le in L. lra.
Qed.

Lemma log2_bracket (n : Z) : (0 < n)%Z ->
  pow2 (Z.log2 n) <= inject_Z n /\ inject_Z n < pow2 (Z.log2 n + 1).
Proof.
  intros H. destruct (Z.log2_spec n H) as [L U].
  pose proof (Z.log2_nonneg n) as P.
  rewrite !pow2_Z by lia. rewrite <- Zle_Qle, <- Zlt_Qlt.
  replace (Z.log2 n + 1)%Z with (Z.succ (Z.log2 n)) by lia. lia.
Qed.

Lemma binade_spec x : 0 < x -> pow2 (binade x) <= x /\ x < pow2 (binade x + 1).
Proof.
  intros Hx. destruct x as [n d].
  assert (Hn : (0 < n)%Z) by (unfold Qlt in Hx; simpl in Hx; lia).
  unfold binade. cbn [Qnum Qden].
  set (a := Z.log2 n). set (b := Z.log2 (Zpos d)).
  destruct (log2_bracket n Hn) as [La Ua]. fold a in La, Ua.
  destruct (log2_bracket (Zpos d) eq_refl) as [Lb Ub]. fold b in Lb, Ub.
  rewrite pow2_succ in Ua, Ub.
  pose proof (pow2_pos a) as Pa. pose proof (pow2_pos b) as Pb.
  assert (X : n # d == inject_Z n / inject_Z (Zpos d)) by apply Qmake_Qdiv.
  assert (Dpos : 0 < inject_Z (Zpos d)) by lra.
  assert (U : n # d < pow2 (a - b + 1)).
  { rewrite pow2_succ, pow2_sub, X.
    apply Qlt_shift_div_r; [assumption|].
    setoid_replace (2 * (pow2 a / pow2 b) * inject_Z (Z.pos d))
      with ((2 * pow2 a) * (inject_Z (Z.pos d) / pow2 b)) using relation Qeq
      by (field; lra).
    assert (1 <= inject_Z (Z.pos d) / pow2 b).
    { apply Qle_shift_div_l; [assumption|]. lra. }
    nra. }
  assert (L : pow2 (a - b - 1) <= n # d).
  { assert (E : pow2 (a - b) == 2 * pow2 (a - b - 1)).
    { rewrite <- pow2_succ. replace (a - b - 1 + 1)%Z with (a - b)%Z by lia. reflexivity. }
    rewrite pow2_sub in E. rewrite X.
    apply Qle_shift_div_l; [assumption|].
    assert (E2 : pow2 a == 2 * pow2 (a - b - 1) * pow2 b).
    { rewrite <- E. field. lra. }
    pose proof (pow2_pos (a - b - 1)).
    nra. }
  destruct (Qle_bool (pow2 (a - b)) (n # d)) eqn:T.
  - apply Qle_bool_iff in T. split; assumption.
  - split; [assumption|].
    replace (a - b - 1 + 1)%Z with (a - b)%Z by lia.
    apply Qnot_le_lt. intros C. apply Qle_bool_iff in C. congruence.
Qed.

Lemma binade_unique x e : pow2 e <= x -> x < pow2 (e + 1) -> binade x = e.
Proof.
  intros L U.
  assert (Hx : 0 < x) by (pose proof (pow2_pos e); lra).
  destruct (binade_spec x Hx) as [L' U'].
  assert (binade x < e + 1)%Z by (apply pow2_lt_inv; lra).
  assert (e < binade x + 1)%Z by (apply pow2_lt_inv; lra).
  lia.
Qed.

Lemma binade_comp x y : 0 < x -> x == y -> binade x = binade y.
Proof.
  intros Hx E. symmetry. destruct (binade_spec x Hx).
  apply binade_unique; rewrite <- E; assumption.
Qed.

Lemma binade_mono x y : 0 < x -> x <= y -> (binade x <= binade y)%Z.
Proof.
  intros Hx L.
  destruct (binade_spec x Hx). destruct (binade_spec y ltac:(lra)).
  assert (binade x < binade y + 1)%Z by (apply pow2_lt_inv; lra). lia.
Qed.
Lemma roundHalfEven_comp q r : q == r -> roundHalfEven q = roundHalfEven r.
Proof.
  intros E. unfold roundHalfEven.
  rewrite (Qfloor_comp _ _ E).
  assert (E' : q - inject_Z (Qfloor r) == r - inject_Z (Qfloor r)) by (rewrite E; reflexivity).
  rewrite (Qcompare_comp _ _ E' _ _ (Qeq_refl (1 # 2))). reflexivity.
Qed.

Lemma roundHalfEven_bounds q :
  (Qfloor q <= roundHalfEven q <= Qfloor q + 1)%Z.
Proof.
  unfold roundHalfEven.
  destruct (Qcompare _ _); [destruct (Z.even _)| |]; lia.
Qed.

Lemma roundHalfEven_Z z : roundHalfEven (inject_Z z) = z.
Proof.
  unfold roundHalfEven. rewrite Qfloor_Z.
  assert (E : inject_Z z - inject_Z z < 1 # 2) by lra.
  rewrite Qlt_alt in E. rewrite E. reflexivity.
Qed.

Lemma roundHalfEven_mono q r : q <= r -> (roundHalfEven q <= roundHalfEven r)%Z.
Proof.
  intros L. pose proof (Qfloor_resp_le _ _ L) as F.
  destruct (Z.eq_dec (Qfloor q) (Qfloor r)) as [E|N].
  - unfold roundHalfEven. rewrite E.
    destruct (Qcompare (q - inject_Z (Qfloor r)) (1 # 2)) eqn:Cq;
    destruct (Qcompare (r - inject_Z (Qfloor r)) (1 # 2)) eqn:Cr;
    try (destruct (Z.even (Qfloor r))); try lia;
    exfalso;
    first [apply <- Qeq_alt in Cq | apply <- Qlt_alt in Cq | apply <- Qgt_alt in Cq];
    first [apply <- Qeq_alt in Cr | apply <- Qlt_alt in Cr | apply <- Qgt_alt in Cr];
    lra.
  - pose proof (roundHalfEven_bounds q). pose proof (roundHalfEven_bounds r). lia.
Qed.

Lemma roundHalfEven_ge z q : inject_Z z <= q -> (z <= roundHalfEven q)%Z.
Proof. intros L. rewrite <- (roundHalfEven_Z z). apply roundHalfEven_mono, L. Qed.

Lemma roundHalfEven_le z q : q <= inject_Z z -> (roundHalfEven q <= z)%Z.
Proof. intros L. rewrite <- (roundHalfEven_Z z). apply roundHalfEven_mono, L. Qed.

(* RNpos as a rational, without the normalisation *)
Lemma RNpos_eq x :
  RNpos x == inject_Z (roundHalfEven (x / pow2 (binade x - 52))) * pow2 (binade x - 52).
Proof. unfold RNpos. apply Qred_correct. Qed.

Lemma scaled_bounds x : 0 < x ->
  inject_Z (2 ^ 52) <= x / pow2 (binade x - 52) /\
  x / pow2 (binade x - 52) <= inject_Z (2 ^ 53).
Proof.
  intros Hx. destruct (binade_spec x Hx) as [L U].
  pose proof (pow2_pos (binade x - 52)) as P.
  assert (E1 : pow2 (binade x) == inject_Z (2 ^ 52) * pow2 (binade x - 52)).
  { rewrite <- pow2_Z by lia. rewrite <- pow2_add. replace (52 + (binade x - 52))%Z with (binade x) by lia. reflexivity. }
  assert (E2 : pow2 (binade x + 1) == inject_Z (2 ^ 53) * pow2 (binade x - 52)).
  { rewrite <- pow2_Z by lia. rewrite <- pow2_add. replace (53 + (binade x - 52))%Z with (binade x + 1)%Z by lia. reflexivity. }
  split.
  - apply Qle_shift_div_l; [assumption|]. lra.
  - apply Qle_shift_div_r; [assumption|]. lra.
Qed.

Lemma RNpos_bounds x : 0 < x ->
  pow2 (binade x) <= RNpos x /\ RNpos x <= pow2 (binade x + 1).
Proof.
  intros Hx. destruct (scaled_bounds x Hx) as [L U].
  pose proof (pow2_pos (binade x - 52)) as P.
  apply roundHalfEven_ge in L. apply roundHalfEven_le in U.
  rewrite Zle_Qle in L, U. rewrite RNpos_eq.
  assert (E1 : pow2 (binade x) == inject_Z (2 ^ 52) * pow2 (binade x - 52)).
  { rewrite <- pow2_Z by lia. rewrite <- pow2_add. replace (52 + (binade x - 52))%Z with (binade x) by lia. reflexivity. }
  assert (E2 : pow2 (binade x + 1) == inject_Z (2 ^ 53) * pow2 (binade x - 52)).
  { rewrite <- pow2_Z by lia. rewrite <- pow2_add. replace (53 + (binade x - 52))%Z with (binade x + 1)%Z by lia. reflexivity. }
  rewrite E1, E2. split; apply Qmult_le_compat_r; lra.
Qed.

Lemma RNpos_mono x y : 0 < x -> x <= y -> RNpos x <= RNpos y.
Proof.
  intros Hx L. assert (Hy : 0 < y) by lra.
  pose proof (binade_mono x y Hx L) as B.
  destruct (Z.eq_dec (binade x) (binade y)) as [E|N].
  - rewrite !RNpos_eq, E.
    pose proof (pow2_pos (binade y - 52)) as P.
    apply Qmult_le_compat_r; [|lra].
    rewrite <- Zle_Qle. apply roundHalfEven_mono.
    apply Qmult_le_compat_r; [assumption|]. apply Qlt_le_weak, Qinv_lt_0_compat, P.
  - destruct (RNpos_bounds x Hx) as [_ U]. destruct (RNpos_bounds y Hy) as [L' _].
    assert (pow2 (binade x + 1) <= pow2 (binade y)) by (apply pow2_le; lia).
    lra.
Qed.

Lemma RNpos_comp x y : 0 < x -> x == y -> RNpos x = RNpos y.
Proof.
  intros Hx E. unfold RNpos. rewrite (binade_comp x y Hx E).
  apply Qred_complete.
  assert (E' : x / pow2 (binade y - 52) == y / pow2 (binade y - 52)) by (rewrite E; reflexivity).
  rewrite (roundHalfEven_comp _ _ E'). reflexivity.
Qed.

Lemma RN_pos x : 0 < x -> RN x = RNpos x.
Proof.
  destruct x as [[|p|p] d]; unfold Qlt; simpl; intros H; try lia. reflexivity.
Qed.

Lemma RN_zero x : x == 0 -> RN x = 0.
Proof.
  destruct x as [[|p|p] d]; unfold Qeq; simpl; intros H; try lia. reflexivity.
Qed.

Lemma RN_comp x y : 0 <= x -> x == y -> RN x = RN y.
Proof.
  intros Hx E. destruct (Qlt_le_dec 0 x) as [P|Z0].
  - rewrite !RN_pos by lra. apply RNpos_comp; assumption.
  - rewrite !RN_zero by lra. reflexivity.
Qed.

Lemma RN_nonneg x : 0 <= x -> 0 <= RN x.
Proof.
  intros Hx. destruct (Qlt_le_dec 0 x) as [P|Z0].
  - rewrite RN_pos by assumption. destruct (RNpos_bounds x P).
    pose proof (pow2_pos (binade x)). lra.
  - rewrite RN_zero by lra. lra.
Qed.

Lemma RN_mono x y : 0 <= x -> x <= y -> RN x <= RN y.
Proof.
  intros Hx L. destruct (Qlt_le_dec 0 x) as [P|Z0].
  - rewrite !RN_pos by lra. apply RNpos_mono; assumption.
  - rewrite (RN_zero x) by lra. apply RN_nonneg. lra.
Qed.

(** The model against the binary64 arithmetic of the kernel, on the two
    computations of the program: the progress value [(i / N) * 100] for
    all pages of all documents of up to 100 pages and of 200 and 400
    pages, and the size in inches [v / (72 * 2)] of all whole viewport
    sizes up to 4000 pixels. *)
Lemma binary64_progress_small :
  forallb (fun N =>
    forallb (fun i =>
      denotes (binary64_of_Z i / binary64_of_Z N * 100)%float
        (jsmul (jsdiv (inject_Z i) (inject_Z N)) 100))
      (seqZ 1 N))
    (seqZ 1 100) = true.
Proof. vm_compute. reflexivity. Qed.

Lemma binary64_progress_200_400 :
  forallb (fun N =>
    forallb (fun i =>
      denotes (binary64_of_Z i / binary64_of_Z N * 100)%float
        (jsmul (jsdiv (inject_Z i) (inject_Z N)) 100))
      (seqZ 1 N))
    [200%Z; 400%Z] = true.
Proof. vm_compute. reflexivity. Qed.

Lemma binary64_inches :
  forallb (fun v =>
    denotes (binary64_of_Z v / (72 * 2))%float (jsdiv (inject_Z v) (jsmul 72 2)))
    (seqZ 1 4000) = true.
Proof. vm_compute. reflexivity. Qed.

(** Page 29 of 200 in the kernel's binary64: [(29 / 200) * 100] is below
    14.5, while [100 * 29 / 200] is 14.5. *)
Lemma binary64_page_29_of_200 :
  ((29 / 200 * 100) <? 14.5)%float = true /\
  ((100 * 29 / 200) =? 14.5)%float = true.
Proof. vm_compute. split; reflexivity. Qed.

End JsNumberFacts.

(** ** Facts on the progress value *)

Module ProgressFacts.
Import JsNumber JsNumberFacts Summary.
Local Open Scope Q_scope.

(** The progress value as a function of the exact fraction of pages. *)
Definition pct (x : Q) : Z := Math_round (jsmul (RN x) 100).

Lemma Math_round_mono x y : x <= y -> (Math_round x <= Math_round y)%Z.
Proof. intros L. apply Qfloor_resp_le. lra. Qed.

Lemma pct_mono x y : 0 <= x -> x <= y -> (pct x <= pct y)%Z.
Proof.
  intros Hx L. apply Math_round_mono. unfold jsmul.
  pose proof (RN_nonneg x Hx) as P. pose proof (RN_mono x y Hx L) as R.
  apply RN_mono; nra.
Qed.

Lemma pct_comp x y : 0 <= x -> x == y -> pct x = pct y.
Proof. intros Hx E. unfold pct. rewrite (RN_comp x y Hx E). reflexivity. Qed.

Lemma percent_pct N i : percent N i = pct (inject_Z i / inject_Z N).
Proof. reflexivity. Qed.

Lemma fraction_nonneg N i :
  (0 <= i)%Z -> (0 < N)%Z -> 0 <= inject_Z i / inject_Z N.
Proof.
  intros Hi HN. rewrite Zle_Qle in Hi. rewrite Zlt_Qlt in HN.
  change (inject_Z 0) with 0 in Hi, HN.
  apply Qle_shift_div_l; [assumption | lra].
Qed.

Lemma fraction_le N i j :
  (i <= j)%Z -> (0 < N)%Z -> inject_Z i / inject_Z N <= inject_Z j / inject_Z N.
Proof.
  intros L HN. rewrite Zle_Qle in L. rewrite Zlt_Qlt in HN.
  change (inject_Z 0) with 0 in HN.
  apply Qmult_le_compat_r; [assumption|].
  apply Qlt_le_weak, Qinv_lt_0_compat, HN.
Qed.

(** [c <= i / N] from [c * N <= i], and the converse bound. *)
Lemma fraction_ge N i (c : Q) :
  (0 < N)%Z -> c * inject_Z N <= inject_Z i -> c <= inject_Z i / inject_Z N.
Proof.
  intros HN L. rewrite Zlt_Qlt in HN. change (inject_Z 0) with 0 in HN.
  apply Qle_shift_div_l; assumption.
Qed.

Lemma fraction_le_const N i (c : Q) :
  (0 < N)%Z -> inject_Z i <= c * inject_Z N -> inject_Z i / inject_Z N <= c.
Proof.
  intros HN L. rewrite Zlt_Qlt in HN. change (inject_Z 0) with 0 in HN.
  apply Qle_shift_div_r; assumption.
Qed.

Lemma percent_mono N i j :
  (0 <= i)%Z -> (i <= j)%Z -> (0 < N)%Z -> (percent N i <= percent N j)%Z.
Proof.
  intros Hi L HN. rewrite !percent_pct.
  apply pct_mono; [apply fraction_nonneg | apply fraction_le]; assumption.
Qed.

Lemma percent_nonneg N i : (0 <= i)%Z -> (0 < N)%Z -> (0 <= percent N i)%Z.
Proof.
  intros Hi HN. rewrite percent_pct.
  change 0%Z with (pct 0). apply pct_mono; [lra|].
  apply fraction_nonneg; assumption.
Qed.

Lemma percent_le_100 N i : (0 <= i)%Z -> (i <= N)%Z -> (0 < N)%Z -> (percent N i <= 100)%Z.
Proof.
  intros Hi L HN. rewrite percent_pct.
  change 100%Z with (pct 1). apply pct_mono; [apply fraction_nonneg; assumption|].
  apply fraction_le_const; [assumption|]. rewrite Zle_Qle in L. lra.
Qed.

Lemma percent_last N : (0 < N)%Z -> percent N N = 100%Z.
Proof.
  intros HN. rewrite percent_pct.
  change 100%Z with (pct 1). apply pct_comp.
  - apply fraction_nonneg; lia.
  - rewrite Zlt_Qlt in HN. change (inject_Z 0) with 0 in HN. field. lra.
Qed.

(** From 99.5 percent of the pages on, the value is 100: [199/200] rounds
    to a number just below it, whose product with 100 rounds to 99.5. *)
Lemma percent_100_from N i :
  (0 < N)%Z -> (i <= N)%Z -> (199 * N <= 200 * i)%Z -> percent N i = 100%Z.
Proof.
  intros HN L H.
  assert (Hi : (0 <= i)%Z) by lia.
  pose proof (percent_le_100 N i Hi L HN) as U.
  assert (100 <= percent N i)%Z; [|lia].
  rewrite percent_pct. change 100%Z with (pct (199 # 200)).
  apply pct_mono; [lra|].
  apply fraction_ge; [assumption|].
  rewrite Zle_Qle in H. rewrite !inject_Z_mult in H.
  change (inject_Z 199) with 199 in H. change (inject_Z 200) with 200 in H. lra.
Qed.

(** Below [397/399] of the pages the value is at most 99. *)
Lemma percent_below_100 N i :
  (0 < N)%Z -> (0 <= i)%Z -> (399 * i <= 397 * N)%Z -> (percent N i <= 99)%Z.
Proof.
  intros HN Hi H. rewrite percent_pct. change 99%Z with (pct (397 # 399)).
  apply pct_mono; [apply fraction_nonneg; assumption|].
  apply fraction_le_const; [assumption|].
  rewrite Zle_Qle in H. rewrite !inject_Z_mult in H.
  change (inject_Z 399) with 399 in H. change (inject_Z 397) with 397 in H. lra.
Qed.

End ProgressFacts.

(** ** Facts on the run *)

Module AppFacts.
Import JsNumber Pptxgen App Summary.
Local Open Scope Z_scope.

Lemma emits_app es1 es2 w : emits (es1 ++ es2) w = emits es2 (emits es1 w).
Proof. unfold emits. apply foldl_app. Qed.

Lemma trace_emits es w : trace (emits es w) = trace w ++ es.
Proof.
  revert w. induction es as [|e es IH]; intros w; simpl.
  - now rewrite app_nil_r.
  - rewrite IH. simpl. now rewrite <- app_assoc.
Qed.

Lemma state_emits es w : state (emits es w) = foldl (fun s e => applyEffect e s) (state w) es.
Proof.
  revert w. induction es as [|e es IH]; intros w; simpl; [reflexivity|].
  now rewrite IH.
Qed.

Lemma alter_last {A : Type} (f : A -> A) (l : list A) (a : A) :
  alter f (length l) (l ++ [a]) = l ++ [f a].
Proof. induction l as [|b l IH]; simpl; [reflexivity|]. now f_equal. Qed.

(** [replace]: a name whose only occurrence of the pattern is at its end
    gets that occurrence replaced. *)
Lemma stripPrefix_append p rest : stripPrefix p (String.append p rest) = Some rest.
Proof.
  induction p as [|a p IH]; [now destruct rest|].
  change (stripPrefix (String a p) (String a (String.append p rest)) = Some rest).
  cbn [stripPrefix]. now rewrite Ascii.eqb_refl.
Qed.

Lemma append_empty q : String.append q EmptyString = q.
Proof.
  induction q as [|a q IH]; [reflexivity|].
  change (String a (String.append q EmptyString) = String a q). now f_equal.
Qed.

Lemma replace_unfold p r s :
  replace p r s =
  match stripPrefix p s with
  | Some rest => String.append r rest
  | None =>
      match s with
      | EmptyString => EmptyString
      | String c s' => String c (replace p r s')
      end
  end.
Proof. destruct s; reflexivity. Qed.

Lemma replace_trailing p r stem :
  occursBefore p stem p = false ->
  replace p r (String.append stem p) = String.append stem r.
Proof.
  induction stem as [|c stem IH]; intros H.
  - change (replace p r p = r). rewrite replace_unfold.
    pose proof (stripPrefix_append p EmptyString) as E.
    rewrite append_empty in E. now rewrite E, append_empty.
  - cbn [occursBefore] in H. rewrite replace_unfold.
    destruct (stripPrefix p (String.append (String c stem) p)); [discriminate|].
    change (String c (replace p r (String.append stem p)) = String c (String.append stem r)).
    now rewrite IH.
Qed.

Section Run.
Variable env : Env.

(** One cycle: it completes with the page appended, or throws what the
    libraries answered. *)
Lemma pageCycle_spec pdf N i pptx w :
  pageCycle env pdf N i pptx w =
  match pageOutcome env pdf i with
  | inr r => (inr (appendPage i r pptx), emits (cycleEffects N i r) w)
  | inl t => (inl t, emits (faultEffects env pdf i) w)
  end.
Proof.
  unfold pageCycle, pageOutcome, faultEffects, await, bind, effect, throw, ret.
  destruct (getPage pdf i) as [t|page]; [reflexivity|].
  destruct (getContext2d env i); simpl; [|reflexivity].
  destruct (render page _ _) as [t|img]; [reflexivity|].
  unfold cycleEffects, appendPage, set_layout, defineLayout, addImage. simpl.
  destruct (i =? 1); simpl.
  - rewrite lookup_insert_eq. simpl. rewrite alter_last. reflexivity.
  - rewrite alter_last. reflexivity.
Qed.

(** The loop: the pages before the first fault are appended in order, and
    the fault, if there is one, is thrown at once. *)
Lemma pageLoop_spec pdf N n : forall i pptx w,
  pageLoop env pdf N n i pptx w =
  (match snd (outcomes env pdf n i) with
   | None => inr (appendPages i (fst (outcomes env pdf n i)) pptx)
   | Some t => inl t
   end,
   emits (loopEffects N i (fst (outcomes env pdf n i))
          ++ match snd (outcomes env pdf n i) with
             | None => []
             | Some _ =>
                 faultEffects env pdf
                   (i + Z.of_nat (length (fst (outcomes env pdf n i))))
             end) w).
Proof.
  induction n as [|n IH]; intros i pptx w.
  - reflexivity.
  - cbn [pageLoop outcomes]. unfold bind. rewrite pageCycle_spec.
    destruct (pageOutcome env pdf i) as [t|r].
    + cbn [fst snd loopEffects length Datatypes.app]. now rewrite Z.add_0_r.
    + rewrite IH. destruct (outcomes env pdf n (i + 1)) as [rs ot].
      cbn [fst snd loopEffects length]. rewrite <- emits_app, <- app_assoc.
      replace (i + 1 + Z.of_nat (length rs)) with (i + Z.of_nat (S (length rs))) by lia.
      destruct ot; reflexivity.
Qed.

Lemma run_no_file s : file s = None -> run env s = {| state := s; trace := [] |}.
Proof. intros H. unfold run, convertPdfToPptx. simpl. now rewrite H. Qed.

(** A run whose document does not load. *)
Lemma run_decode_fault s f t :
  file s = Some f -> getDocument env (arrayBuffer f) = inl t ->
  run env s = emits (opening ++ failure t) {| state := s; trace := [] |}.
Proof.
  intros Hf Hd. unfold run, convertPdfToPptx. cbn [state]. rewrite Hf.
  unfold tryCatch, tryBlock, catchBlock, await, bind, effect, throw.
  rewrite Hd. reflexivity.
Qed.

(** A run whose document loads. *)
Lemma run_loaded s f pdf :
  file s = Some f -> getDocument env (arrayBuffer f) = inr pdf ->
  run env s =
  emits (opening ++ [NewPptxgen]
         ++ loopEffects (numPages pdf) 1
              (fst (outcomes env pdf (Z.to_nat (numPages pdf)) 1))
         ++ closing env pdf
              (fst (outcomes env pdf (Z.to_nat (numPages pdf)) 1))
              (snd (outcomes env pdf (Z.to_nat (numPages pdf)) 1)))
    {| state := s; trace := [] |}.
Proof.
  intros Hf Hd. unfold run, convertPdfToPptx. cbn [state]. rewrite Hf.
  unfold tryCatch, tryBlock, catchBlock, await, bind, effect, throw, ret.
  rewrite Hd. rewrite pageLoop_spec.
  destruct (outcomes env pdf (Z.to_nat (numPages pdf)) 1) as [rs ot].
  cbn [fst snd]. rewrite !emits_app.
  destruct ot as [t|]; unfold closing.
  - rewrite emits_app. reflexivity.
  - rewrite ?app_nil_r.
    destruct (write env (appendPages 1 rs new_pptxgen)); reflexivity.
Qed.

End Run.

(** X13. [downloadPptx] on a name that ends in ".pdf" and has no other
    occurrence of it: the extension is replaced, and the download is
    named by the stem followed by ".pptx". *)
Lemma downloadPptx_trailing_extension s f b stem :
  pptxBlob s = Some b -> file s = Some f ->
  name f = String.append stem ".pdf" ->
  occursBefore ".pdf" stem ".pdf" = false ->
  downloadPptx s = Some (String.append stem ".pptx", b).
Proof.
  intros Hb Hf Hn Ho. unfold downloadPptx. rewrite Hb, Hf, Hn.
  now rewrite replace_trailing.
Qed.

End AppFacts.

(** ** Facts on the summaries *)

Module SummaryFacts.
Import JsNumber Pptxgen App Summary.
Local Open Scope Z_scope.

Section Answers.
Variable env : Env.
Variable pdf : PDFDocumentProxy.

Lemma outcomes_length n : forall i,
  (length (fst (outcomes env pdf n i)) <= n)%nat.
Proof.
  induction n as [|n IH]; intros i; cbn [outcomes]; [simpl; lia|].
  destruct (pageOutcome env pdf i) as [t|r]; [simpl; lia|].
  specialize (IH (i + 1)). destruct (outcomes env pdf n (i + 1)) as [rs ot].
  simpl in *. lia.
Qed.

Lemma outcomes_complete n : forall i,
  snd (outcomes env pdf n i) = None ->
  length (fst (outcomes env pdf n i)) = n.
Proof.
  induction n as [|n IH]; intros i; cbn [outcomes]; [reflexivity|].
  destruct (pageOutcome env pdf i) as [t|r]; [discriminate|].
  specialize (IH (i + 1)). destruct (outcomes env pdf n (i + 1)) as [rs ot].
  simpl in *. intros H. now rewrite IH.
Qed.

Lemma outcomes_lookup n : forall i (k : nat) r,
  fst (outcomes env pdf n i) !! k = Some r ->
  pageOutcome env pdf (i + Z.of_nat k) = inr r.
Proof.
  induction n as [|n IH]; intros i k r; cbn [outcomes]; [discriminate|].
  destruct (pageOutcome env pdf i) as [t|r0] eqn:E; [discriminate|].
  specialize (IH (i + 1)). destruct (outcomes env pdf n (i + 1)) as [rs ot].
  cbn [fst] in *. destruct k as [|k]; simpl.
  - intros [= <-]. now rewrite Z.add_0_r.
  - intros H. apply IH in H. rewrite <- H. f_equal. lia.
Qed.

Lemma outcomes_fault n : forall i t,
  snd (outcomes env pdf n i) = Some t ->
  (length (fst (outcomes env pdf n i)) < n)%nat /\
  pageOutcome env pdf (i + Z.of_nat (length (fst (outcomes env pdf n i)))) = inl t.
Proof.
  induction n as [|n IH]; intros i t; cbn [outcomes]; [discriminate|].
  destruct (pageOutcome env pdf i) as [t0|r] eqn:E.
  - intros [= <-]. simpl. rewrite Z.add_0_r. split; [lia | assumption].
  - specialize (IH (i + 1) t). destruct (outcomes env pdf n (i + 1)) as [rs ot].
    cbn [fst snd] in *. intros H. destruct (IH H) as [L P]. split; [simpl; lia|].
    rewrite <- P. f_equal. simpl length. lia.
Qed.

(** A page that throws stops the answers at or before it. *)
Lemma outcomes_stop n : forall i (k : nat) t,
  (k < n)%nat -> pageOutcome env pdf (i + Z.of_nat k) = inl t ->
  exists t', snd (outcomes env pdf n i) = Some t' /\
             (length (fst (outcomes env pdf n i)) <= k)%nat.
Proof.
  induction n as [|n IH]; intros i k t Hk Hp; [lia|]. cbn [outcomes].
  destruct (pageOutcome env pdf i) as [t0|r] eqn:E.
  - exists t0. simpl. split; [reflexivity | lia].
  - destruct k as [|k]; [rewrite Z.add_0_r in Hp; congruence|].
    destruct (IH (i + 1) k t) as (t' & Ht & Hl); [lia| |].
    + rewrite <- Hp. f_equal. lia.
    + destruct (outcomes env pdf n (i + 1)) as [rs ot]. cbn [fst snd] in *.
      exists t'. split; [assumption | simpl; lia].
Qed.

End Answers.

Lemma slides_appendPages rs : forall i pptx,
  slides (appendPages i rs pptx) = slides pptx ++ (slideOf <$> rs).
Proof.
  induction rs as [|r rs IH]; intros i pptx; cbn [appendPages].
  - simpl. now rewrite app_nil_r.
  - rewrite IH. unfold appendPage. destruct (i =? 1); simpl;
      now rewrite <- app_assoc.
Qed.

Lemma layout_appendPages_later rs : forall i pptx,
  1 < i ->
  presLayout (appendPages i rs pptx) = presLayout pptx /\
  layout (appendPages i rs pptx) = layout pptx /\
  LAYOUTS (appendPages i rs pptx) = LAYOUTS pptx.
Proof.
  induction rs as [|r rs IH]; intros i pptx Hi; cbn [appendPages]; [easy|].
  destruct (IH (i + 1) (appendPage i r pptx)) as (-> & -> & ->); [lia|].
  unfold appendPage. destruct (Z.eqb_spec i 1); [lia|]. easy.
Qed.

Lemma layout_appendPages_first r rs pptx :
  presLayout (appendPages 1 (r :: rs) pptx) = canvasSize (fst r) /\
  layout (appendPages 1 (r :: rs) pptx) = "PDF_SIZE" /\
  LAYOUTS (appendPages 1 (r :: rs) pptx)
  = <["PDF_SIZE" := canvasSize (fst r)]> (LAYOUTS pptx).
Proof.
  cbn [appendPages].
  destruct (layout_appendPages_later rs (1 + 1) (appendPage 1 r pptx))
    as (-> & -> & ->); [lia|].
  easy.
Qed.

(** The readings of the effects of the loop. *)
Lemma progressCalls_loop N rs : forall i,
  progressCalls (loopEffects N i rs) = percent N <$> seqZ i (Z.of_nat (length rs)).
Proof.
  unfold progressCalls.
  induction rs as [|r rs IH]; intros i; [reflexivity|].
  cbn [loopEffects length]. rewrite omap_app, IH.
  rewrite (seqZ_cons i) by lia.
  replace (Z.pred (Z.of_nat (S (length rs)))) with (Z.of_nat (length rs)) by lia.
  replace (Z.succ i) with (i + 1) by lia.
  unfold cycleEffects. destruct (i =? 1); reflexivity.
Qed.

Lemma pagesFetched_loop N rs : forall i,
  pagesFetched (loopEffects N i rs) = seqZ i (Z.of_nat (length rs)).
Proof.
  unfold pagesFetched.
  induction rs as [|r rs IH]; intros i; [reflexivity|].
  cbn [loopEffects length]. rewrite omap_app, IH.
  rewrite (seqZ_cons i) by lia.
  replace (Z.pred (Z.of_nat (S (length rs)))) with (Z.of_nat (length rs)) by lia.
  replace (Z.succ i) with (i + 1) by lia.
  unfold cycleEffects. destruct (i =? 1); reflexivity.
Qed.

Lemma consoleErrors_loop N rs : forall i, consoleErrors (loopEffects N i rs) = [].
Proof.
  unfold consoleErrors.
  induction rs as [|r rs IH]; intros i; [reflexivity|].
  cbn [loopEffects]. rewrite omap_app, IH.
  unfold cycleEffects. destruct (i =? 1); reflexivity.
Qed.

Lemma blobsSet_loop N rs : forall i, blobsSet (loopEffects N i rs) = [].
Proof.
  unfold blobsSet.
  induction rs as [|r rs IH]; intros i; [reflexivity|].
  cbn [loopEffects]. rewrite omap_app, IH.
  unfold cycleEffects. destruct (i =? 1); reflexivity.
Qed.

Lemma writeCalls_loop N rs : forall i, writeCalls (loopEffects N i rs) = 0%nat.
Proof.
  unfold writeCalls.
  induction rs as [|r rs IH]; intros i; [reflexivity|].
  cbn [loopEffects]. rewrite omap_app, length_app, IH.
  unfold cycleEffects. destruct (i =? 1); reflexivity.
Qed.

Lemma slidesAdded_loop N rs : forall i,
  slidesAdded (loopEffects N i rs) = length rs.
Proof.
  unfold slidesAdded.
  induction rs as [|r rs IH]; intros i; [reflexivity|].
  cbn [loopEffects length]. rewrite omap_app, length_app, IH.
  unfold cycleEffects. destruct (i =? 1); reflexivity.
Qed.

Lemma layoutsDefined_later N rs : forall i,
  1 < i -> layoutsDefined (loopEffects N i rs) = [].
Proof.
  unfold layoutsDefined.
  induction rs as [|r rs IH]; intros i Hi; [reflexivity|].
  cbn [loopEffects]. rewrite omap_app, IH by lia.
  unfold cycleEffects. destruct (Z.eqb_spec i 1); [lia | reflexivity].
Qed.

Lemma layoutsDefined_first N r rs :
  layoutsDefined (loopEffects N 1 (r :: rs)) = [("PDF_SIZE", canvasSize (fst r))].
Proof.
  cbn [loopEffects]. unfold layoutsDefined. rewrite omap_app.
  fold (layoutsDefined (loopEffects N (1 + 1) rs)).
  rewrite layoutsDefined_later by lia. reflexivity.
Qed.

End SummaryFacts.

(** ** The outcome and the final state of a run *)

Module RunFacts.
Import JsNumber Pptxgen App Summary AppFacts SummaryFacts.
Local Open Scope Z_scope.

Lemma blobsSet_app a b : blobsSet (a ++ b) = blobsSet a ++ blobsSet b.
Proof. apply omap_app. Qed.

Lemma consoleErrors_app a b : consoleErrors (a ++ b) = consoleErrors a ++ consoleErrors b.
Proof. apply omap_app. Qed.

Lemma progressCalls_app a b : progressCalls (a ++ b) = progressCalls a ++ progressCalls b.
Proof. apply omap_app. Qed.

Lemma pagesFetched_app a b : pagesFetched (a ++ b) = pagesFetched a ++ pagesFetched b.
Proof. apply omap_app. Qed.

Lemma layoutsDefined_app a b : layoutsDefined (a ++ b) = layoutsDefined a ++ layoutsDefined b.
Proof. apply omap_app. Qed.

Lemma writeCalls_app a b : writeCalls (a ++ b) = (writeCalls a + writeCalls b)%nat.
Proof. unfold writeCalls. now rewrite omap_app, length_app. Qed.


Lemma slidesAdded_app a b : slidesAdded (a ++ b) = (slidesAdded a + slidesAdded b)%nat.
Proof. unfold slidesAdded. now rewrite omap_app, length_app. Qed.

(** The state setters a list of effects leaves untouched. *)
Lemma pptxBlob_emits es : forall w,
  blobsSet es = [] -> pptxBlob (state (emits es w)) = pptxBlob (state w).
Proof.
  induction es as [|e es IH]; intros w H; [reflexivity|].
  cbn [emits foldl]. fold (emits es (emit e w)).
  destruct e; try discriminate H; rewrite IH by exact H; reflexivity.
Qed.

Lemma file_emits es : forall w, file (state (emits es w)) = file (state w).
Proof.
  induction es as [|e es IH]; intros w; [reflexivity|].
  cbn [emits foldl]. fold (emits es (emit e w)).
  rewrite IH. destruct e; reflexivity.
Qed.

Lemma state_after_failure es t w :
  error (state (emits (es ++ failure t) w)) = Some errorMessage /\
  isGenerating (state (emits (es ++ failure t) w)) = false.
Proof. rewrite emits_app. split; reflexivity. Qed.

Section Run.
Variable env : Env.

Lemma faultEffects_readings pdf i :
  blobsSet (faultEffects env pdf i) = [] /\
  consoleErrors (faultEffects env pdf i) = [] /\
  progressCalls (faultEffects env pdf i) = [] /\
  pagesFetched (faultEffects env pdf i) = [i] /\
  layoutsDefined (faultEffects env pdf i) = [] /\
  writeCalls (faultEffects env pdf i) = 0%nat /\
  slidesAdded (faultEffects env pdf i) = 0%nat.
Proof.
  unfold faultEffects.
  destruct (getPage pdf i); [|destruct (getContext2d env i)]; easy.
Qed.

(** The trace of a run whose document loads, by [run_loaded]. *)
Lemma trace_loaded s f pdf :
  file s = Some f -> getDocument env (arrayBuffer f) = inr pdf ->
  trace (run env s) =
  opening ++ [NewPptxgen]
  ++ loopEffects (numPages pdf) 1
       (fst (outcomes env pdf (Z.to_nat (numPages pdf)) 1))
  ++ closing env pdf
       (fst (outcomes env pdf (Z.to_nat (numPages pdf)) 1))
       (snd (outcomes env pdf (Z.to_nat (numPages pdf)) 1)).
Proof.
  intros Hf Hd. rewrite (run_loaded env s f pdf Hf Hd), trace_emits. reflexivity.
Qed.

Lemma trace_decode_fault s f t :
  file s = Some f -> getDocument env (arrayBuffer f) = inl t ->
  trace (run env s) = opening ++ failure t.
Proof.
  intros Hf Hd. rewrite (run_decode_fault env s f t Hf Hd), trace_emits. reflexivity.
Qed.

(** The outcome of a run whose document loads: the fault of the first
    page that throws, else the rejection of [write], else the blob of the
    presentation with the pages appended. *)
Lemma outcome_loaded s f pdf :
  file s = Some f -> getDocument env (arrayBuffer f) = inr pdf ->
  outcome (trace (run env s)) =
  match snd (outcomes env pdf (Z.to_nat (numPages pdf)) 1) with
  | Some t => Failed t
  | None =>
      let pptx := appendPages 1 (fst (outcomes env pdf (Z.to_nat (numPages pdf)) 1))
                    new_pptxgen in
      match write env pptx with
      | Some t => Failed t
      | None => Completed {| deck := pptx |}
      end
  end.
Proof.
  intros Hf Hd. rewrite (trace_loaded s f pdf Hf Hd).
  destruct (outcomes env pdf (Z.to_nat (numPages pdf)) 1) as [rs ot].
  cbn [fst snd]. unfold outcome.
  rewrite !blobsSet_app, !consoleErrors_app, blobsSet_loop, consoleErrors_loop.
  unfold closing. destruct ot as [t|].
  - rewrite blobsSet_app, consoleErrors_app.
    destruct (faultEffects_readings pdf (1 + Z.of_nat (length rs))) as (-> & -> & _).
    reflexivity.
  - cbn zeta. destruct (write env (appendPages 1 rs new_pptxgen)); reflexivity.
Qed.

(** A completed run: every page answered, [write] resolved, and the blob
    holds the presentation with the pages appended in order. *)
Lemma run_completed s f pdf blob :
  file s = Some f -> getDocument env (arrayBuffer f) = inr pdf ->
  outcome (trace (run env s)) = Completed blob ->
  exists rs,
    outcomes env pdf (Z.to_nat (numPages pdf)) 1 = (rs, None) /\
    length rs = Z.to_nat (numPages pdf) /\
    write env (appendPages 1 rs new_pptxgen) = None /\
    blob = {| deck := appendPages 1 rs new_pptxgen |}.
Proof.
  intros Hf Hd. rewrite (outcome_loaded s f pdf Hf Hd).
  pose proof (outcomes_complete env pdf (Z.to_nat (numPages pdf)) 1) as C.
  destruct (outcomes env pdf (Z.to_nat (numPages pdf)) 1) as [rs ot].
  cbn [fst snd] in *. destruct ot as [t|]; [discriminate|].
  cbn zeta. destruct (write env (appendPages 1 rs new_pptxgen)) eqn:W; [discriminate|].
  intros [= <-]. exists rs. auto.
Qed.

(** Every page answers: the loop meets no fault. *)
Lemma outcomes_all_answer pdf :
  (forall i, 1 <= i <= numPages pdf -> exists r, pageOutcome env pdf i = inr r) ->
  snd (outcomes env pdf (Z.to_nat (numPages pdf)) 1) = None.
Proof.
  intros H. destruct (snd (outcomes env pdf (Z.to_nat (numPages pdf)) 1)) as [t|] eqn:E;
    [|reflexivity].
  destruct (outcomes_fault env pdf _ _ _ E) as [L P].
  destruct (H (1 + Z.of_nat (length (fst (outcomes env pdf (Z.to_nat (numPages pdf)) 1)))))
    as [r Hr]; [lia | congruence].
Qed.

Lemma closing_readings pdf rs ot :
  progressCalls (closing env pdf rs ot) = [] /\
  layoutsDefined (closing env pdf rs ot) = [] /\
  slidesAdded (closing env pdf rs ot) = 0%nat.
Proof.
  unfold closing. destruct ot as [t|].
  - rewrite progressCalls_app, layoutsDefined_app, slidesAdded_app.
    destruct (faultEffects_readings pdf (1 + Z.of_nat (length rs)))
      as (_ & _ & -> & _ & -> & _ & ->).
    easy.
  - destruct (write env (appendPages 1 rs new_pptxgen)); easy.
Qed.

(** The progress values of a run whose document loads: the reset of
    line 58, then one value for each page the loop completed. *)
Lemma progressEvents_loaded s f pdf :
  file s = Some f -> getDocument env (arrayBuffer f) = inr pdf ->
  progressEvents (trace (run env s))
  = percent (numPages pdf)
      <$> seqZ 1 (Z.of_nat (length (fst (outcomes env pdf (Z.to_nat (numPages pdf)) 1)))) /\
  progressCalls (trace (run env s)) = 0 :: progressEvents (trace (run env s)).
Proof.
  intros Hf Hd. rewrite (trace_loaded s f pdf Hf Hd).
  assert (E : progressEvents
                (opening ++ [NewPptxgen]
                 ++ loopEffects (numPages pdf) 1
                      (fst (outcomes env pdf (Z.to_nat (numPages pdf)) 1))
                 ++ closing env pdf
                      (fst (outcomes env pdf (Z.to_nat (numPages pdf)) 1))
                      (snd (outcomes env pdf (Z.to_nat (numPages pdf)) 1)))
              = percent (numPages pdf)
                  <$> seqZ 1 (Z.of_nat (length (fst (outcomes env pdf (Z.to_nat (numPages pdf)) 1))))).
  { unfold progressEvents. cbn [opening afterLoad Datatypes.app].
    change (progressCalls (NewPptxgen :: ?l)) with (progressCalls l).
    rewrite progressCalls_app, progressCalls_loop.
    destruct (closing_readings pdf
                (fst (outcomes env pdf (Z.to_nat (numPages pdf)) 1))
                (snd (outcomes env pdf (Z.to_nat (numPages pdf)) 1))) as (-> & _).
    now rewrite app_nil_r. }
  split; [exact E|]. rewrite E. clear E.
  cbn [opening Datatypes.app]. unfold progressCalls at 1. cbn [omap list_omap]. f_equal.
  fold (progressCalls
          (loopEffects (numPages pdf) 1
             (fst (outcomes env pdf (Z.to_nat (numPages pdf)) 1))
           ++ closing env pdf
                (fst (outcomes env pdf (Z.to_nat (numPages pdf)) 1))
                (snd (outcomes env pdf (Z.to_nat (numPages pdf)) 1)))).
  rewrite progressCalls_app, progressCalls_loop.
  destruct (closing_readings pdf
              (fst (outcomes env pdf (Z.to_nat (numPages pdf)) 1))
              (snd (outcomes env pdf (Z.to_nat (numPages pdf)) 1))) as (-> & _).
  now rewrite app_nil_r.
Qed.

(** The deck of a completed run over at least one page: its layout is
    the one defined from the first page, and it is defined once. *)
Lemma completed_layout s f pdf blob :
  file s = Some f -> getDocument env (arrayBuffer f) = inr pdf ->
  1 <= numPages pdf ->
  outcome (trace (run env s)) = Completed blob ->
  exists vp1 img1,
    pageOutcome env pdf 1 = inr (vp1, img1) /\
    layout (deck blob) = "PDF_SIZE" /\
    presLayout (deck blob) = canvasSize vp1 /\
    LAYOUTS (deck blob) !! "PDF_SIZE" = Some (canvasSize vp1) /\
    layoutsDefined (trace (run env s)) = [("PDF_SIZE", canvasSize vp1)].
Proof.
  intros Hf Hd HN Ho.
  destruct (run_completed s f pdf blob Hf Hd Ho) as (rs & Hrs & Hlen & _ & ->).
  destruct rs as [|[vp1 img1] rs]; [simpl in Hlen; lia|].
  exists vp1, img1.
  pose proof (outcomes_lookup env pdf (Z.to_nat (numPages pdf)) 1 0 (vp1, img1)) as L.
  rewrite Hrs in L. specialize (L eq_refl). rewrite Z.add_0_r in L.
  destruct (layout_appendPages_first (vp1, img1) rs new_pptxgen) as (P & Q & R).
  cbn [deck fst] in *. rewrite P, Q, R, lookup_insert_eq.
  repeat (split; [easy|]).
  rewrite (trace_loaded s f pdf Hf Hd), Hrs. cbn [fst snd].
  rewrite !layoutsDefined_app, layoutsDefined_first.
  destruct (closing_readings pdf ((vp1, img1) :: rs) None) as (_ & -> & _).
  reflexivity.
Qed.

(** The slides of a completed run: slide i is the slide of page i. *)
Lemma completed_slides s f pdf blob :
  file s = Some f -> getDocument env (arrayBuffer f) = inr pdf ->
  outcome (trace (run env s)) = Completed blob ->
  length (slides (deck blob)) = Z.to_nat (numPages pdf) /\
  forall i, 1 <= i <= numPages pdf ->
    exists r, pageOutcome env pdf i = inr r /\
              slides (deck blob) !! Z.to_nat (i - 1) = Some (slideOf r).
Proof.
  intros Hf Hd Ho.
  destruct (run_completed s f pdf blob Hf Hd Ho) as (rs & Hrs & Hlen & _ & ->).
  cbn [deck]. rewrite slides_appendPages.
  change (slides new_pptxgen) with (@nil Slide). rewrite app_nil_l.
  split; [now rewrite length_fmap|]. intros i Hi.
  destruct (lookup_lt_is_Some_2 rs (Z.to_nat (i - 1))) as [r Hr]; [lia|].
  exists r. split.
  - pose proof (outcomes_lookup env pdf (Z.to_nat (numPages pdf)) 1 (Z.to_nat (i - 1)) r) as L.
    rewrite Hrs in L. specialize (L Hr).
    replace (1 + Z.of_nat (Z.to_nat (i - 1))) with i in L by lia. exact L.
  - now rewrite list_lookup_fmap, Hr.
Qed.

End Run.

(** The list of the progress values of [N] completed pages. *)
Lemma percents_lookup N (k : nat) v :
  (percent N <$> seqZ 1 N) !! k = Some v ->
  v = percent N (1 + Z.of_nat k) /\ Z.of_nat k < N.
Proof.
  rewrite list_lookup_fmap. destruct (seqZ 1 N !! k) as [i|] eqn:E; [|discriminate].
  apply lookup_seqZ in E as [-> L]. intros [= <-]. easy.
Qed.

Lemma percents_lookup_page N i :
  1 <= i <= N -> (percent N <$> seqZ 1 N) !! Z.to_nat (i - 1) = Some (percent N i).
Proof.
  intros Hi. rewrite list_lookup_fmap, lookup_seqZ_lt by lia. simpl.
  do 2 f_equal. lia.
Qed.

Lemma percents_sorted N (a b : nat) x y :
  0 < N -> (a <= b)%nat ->
  (percent N <$> seqZ 1 N) !! a = Some x ->
  (percent N <$> seqZ 1 N) !! b = Some y ->
  x <= y.
Proof.
  intros HN L Ha Hb.
  apply percents_lookup in Ha as [-> _]. apply percents_lookup in Hb as [-> _].
  apply ProgressFacts.percent_mono; lia.
Qed.

Lemma percents_last N : 0 < N -> last (percent N <$> seqZ 1 N) = Some 100.
Proof.
  intros HN. rewrite last_lookup, length_fmap, length_seqZ.
  replace (Init.Nat.pred (Z.to_nat N)) with (Z.to_nat (N - 1)) by lia.
  rewrite percents_lookup_page by lia. f_equal.
  apply ProgressFacts.percent_last, HN.
Qed.

End RunFacts.

(** ** The accuracy of the arithmetic *)

Module AccuracyFacts.
Import JsNumber JsNumberFacts ProgressFacts.
Local Open Scope Q_scope.

(** The unit roundoff of binary64. *)
Definition eps : Q := 1 # 9007199254740992.

Lemma eps_pow2 : eps == pow2 (-53).
Proof. reflexivity. Qed.

Lemma roundHalfEven_near q :
  q - (1 # 2) <= inject_Z (roundHalfEven q) /\
  inject_Z (roundHalfEven q) <= q + (1 # 2).
Proof.
  pose proof (Qfloor_le q) as L. pose proof (Qlt_floor q) as U.
  rewrite inject_Z_plus in U. change (inject_Z 1) with 1 in U.
  unfold roundHalfEven.
  destruct (Qcompare (q - inject_Z (Qfloor q)) (1 # 2)) eqn:C.
  - apply Qeq_alt in C. destruct (Z.even (Qfloor q));
      rewrite ?inject_Z_plus; change (inject_Z 1) with 1; lra.
  - apply Qlt_alt in C. lra.
  - apply Qgt_alt in C. rewrite inject_Z_plus. change (inject_Z 1) with 1. lra.
Qed.

(** The relative error of one rounding. *)
Lemma RNpos_error x :
  0 < x -> x - x * eps <= RNpos x /\ RNpos x <= x + x * eps.
Proof.
  intros Hx. destruct (binade_spec x Hx) as [L _].
  pose proof (pow2_pos (binade x - 52)) as P.
  set (u := pow2 (binade x - 52)) in *.
  destruct (roundHalfEven_near (x / u)) as [A B].
  assert (E : pow2 (binade x) == 4503599627370496 * u).
  { unfold u. change 4503599627370496 with (pow2 52). rewrite <- pow2_add.
    replace (52 + (binade x - 52))%Z with (binade x) by lia. reflexivity. }
  assert (X : x / u * u == x) by (field; lra).
  rewrite RNpos_eq. fold u. unfold eps.
  set (m := inject_Z (roundHalfEven (x / u))) in *.
  assert (Lo : x - u * (1 # 2) <= m * u) by nra.
  assert (Hi : m * u <= x + u * (1 # 2)) by nra.
  split; lra.
Qed.

Lemma RN_error x : 0 <= x -> x - x * eps <= RN x /\ RN x <= x + x * eps.
Proof.
  intros Hx. destruct (Qlt_le_dec 0 x) as [P|Z0].
  - rewrite RN_pos by assumption. now apply RNpos_error.
  - rewrite (RN_zero x) by lra. unfold eps. split; lra.
Qed.

(** An integer bracket fixes the floor. *)
Lemma Qfloor_unique (m : Z) q :
  inject_Z m <= q -> q < inject_Z (m + 1) -> Qfloor q = m.
Proof.
  intros L U. pose proof (Qfloor_le q) as A. pose proof (Qlt_floor q) as B.
  assert (H1 : (Qfloor q < m + 1)%Z) by (rewrite Zlt_Qlt; lra).
  assert (H2 : (m < Qfloor q + 1)%Z) by (rewrite Zlt_Qlt; lra).
  lia.
Qed.

(** The double [(i / N) * 100] is within [200 * eps] of [100 * i / N]. *)
Lemma product_error N i :
  (1 <= i)%Z -> (i <= N)%Z ->
  100 * inject_Z i / inject_Z N - 200 * eps
  <= jsmul (jsdiv (inject_Z i) (inject_Z N)) 100 /\
  jsmul (jsdiv (inject_Z i) (inject_Z N)) 100
  <= 100 * inject_Z i / inject_Z N + 200 * eps.
Proof.
  intros Hi HN. unfold jsmul, jsdiv.
  set (x := inject_Z i / inject_Z N).
  assert (Hx0 : 0 <= x) by (apply fraction_nonneg; lia).
  assert (Hx1 : x <= 1).
  { apply fraction_le_const; [lia|]. rewrite Zle_Qle in HN. lra. }
  destruct (RN_error x Hx0) as [A B].
  pose proof (RN_nonneg x Hx0) as Q0.
  assert (Q1 : RN x <= 1).
  { change 1 with (RN 1). now apply RN_mono. }
  destruct (RN_error (RN x * 100)) as [C D]; [nra|].
  assert (E : 100 * inject_Z i / inject_Z N == 100 * x).
  { unfold x. rewrite Zle_Qle in Hi. rewrite Zle_Qle in HN.
    change (inject_Z 1) with 1 in Hi. field. lra. }
  rewrite E. unfold eps in *. split; nra.
Qed.

End AccuracyFacts.

(** ** The arguments of the library calls

    Statements on sizes are made on what the program hands to
    [defineLayout] and [addImage]: the trace records the arguments of the
    calls as they are made. *)

Module Calls.
Import JsNumber Pptxgen App Summary.
Local Open Scope Z_scope.




End Calls.

Module CallsFacts.
Import JsNumber Pptxgen App Summary Calls.
Import JsNumberFacts AppFacts SummaryFacts RunFacts AccuracyFacts.
Local Open Scope Z_scope.








Section Run.
Variable env : Env.


End Run.




End CallsFacts.

(** * The properties of the specification *)

Import JsNumber Pptxgen App Summary.
Import JsNumberFacts ProgressFacts AppFacts SummaryFacts RunFacts.
Import Calls CallsFacts.
Local Open Scope Z_scope.

(** C1. A document of N >= 1 pages that converts successfully gives a
    deck of exactly N slides, and slide i (at index i - 1) holds the image
    rendered from page i: one slide per page, in page order. *)
Theorem C1_one_slide_per_page_in_order env s f pdf blob :
  file s = Some f ->
  getDocument env (arrayBuffer f) = inr pdf ->
  1 <= numPages pdf ->
  outcome (trace (run env s)) = Completed blob ->
  length (slides (deck blob)) = Z.to_nat (numPages pdf) /\
  forall i, 1 <= i <= numPages pdf ->
    exists vp img,
      pageOutcome env pdf i = inr (vp, img) /\
      slides (deck blob) !! Z.to_nat (i - 1) = Some {| objects := [imageOf vp img] |} /\
      data (imageOf vp img) = img.
Proof.
  intros Hf Hd HN Ho.
  destruct (completed_slides env s f pdf blob Hf Hd Ho) as [Hlen Hsl].
  split; [exact Hlen|]. intros i Hi.
  destruct (Hsl i Hi) as ([vp img] & Hp & Hs).
  exists vp, img. repeat split; assumption.
Qed.

Lemma C1_witness :
  length (slides (deck Scenario.threeLettersBlob)) = 3%nat /\
  forall i, 1 <= i <= 3 ->
    exists vp img,
      pageOutcome (Scenario.browser Scenario.threeLetters) Scenario.threeLetters i
      = inr (vp, img) /\
      slides (deck Scenario.threeLettersBlob) !! Z.to_nat (i - 1)
      = Some {| objects := [imageOf vp img] |} /\
      data (imageOf vp img) = img.
Proof.
  apply (C1_one_slide_per_page_in_order
           (Scenario.browser Scenario.threeLetters)
           (Scenario.chosen "slides.pdf") (Scenario.aFile "slides.pdf")
           Scenario.threeLetters Scenario.threeLettersBlob).
  - reflexivity.
  - reflexivity.
  - simpl. lia.
  - vm_compute. reflexivity.
Defined.

(** C8. A buffer that does not decode: the run ends as a failure with the
    rejection of [getDocument] as the value caught; its whole trace is the
    three resets of lines 57-59, the call of [getDocument] and the [catch]
    block.  No progress value is reported once loading has begun (the
    only [setProgress] is the reset to 0 before it), no presentation
    object is created and no slide is added. *)
Theorem C8_undecodable_buffer_fails_before_any_deck env s f t :
  file s = Some f ->
  getDocument env (arrayBuffer f) = inl t ->
  trace (run env s)
  = [SetIsGenerating true; SetProgress 0; SetError None; GetDocument;
     ConsoleError t; SetError (Some errorMessage); SetIsGenerating false] /\
  outcome (trace (run env s)) = Failed t /\
  progressEvents (trace (run env s)) = [] /\
  decksCreated (trace (run env s)) = 0%nat /\
  slidesAdded (trace (run env s)) = 0%nat /\
  pptxBlob (state (run env s)) = pptxBlob s /\
  error (state (run env s)) = Some errorMessage /\
  progress (state (run env s)) = 0.
Proof.
  intros Hf Hd. rewrite (trace_decode_fault env s f t Hf Hd).
  rewrite (run_decode_fault env s f t Hf Hd).
  repeat split.
Qed.

Lemma C8_witness :
  trace (run Scenario.undecodable (Scenario.chosen "broken.pdf"))
  = [SetIsGenerating true; SetProgress 0; SetError None; GetDocument;
     ConsoleError (Rejected "InvalidPDFException");
     SetError (Some errorMessage); SetIsGenerating false] /\
  outcome (trace (run Scenario.undecodable (Scenario.chosen "broken.pdf")))
  = Failed (Rejected "InvalidPDFException") /\
  progressEvents (trace (run Scenario.undecodable (Scenario.chosen "broken.pdf"))) = [] /\
  decksCreated (trace (run Scenario.undecodable (Scenario.chosen "broken.pdf"))) = 0%nat /\
  slidesAdded (trace (run Scenario.undecodable (Scenario.chosen "broken.pdf"))) = 0%nat /\
  pptxBlob (state (run Scenario.undecodable (Scenario.chosen "broken.pdf")))
  = pptxBlob (Scenario.chosen "broken.pdf") /\
  error (state (run Scenario.undecodable (Scenario.chosen "broken.pdf")))
  = Some errorMessage /\
  progress (state (run Scenario.undecodable (Scenario.chosen "broken.pdf"))) = 0.
Proof.
  apply (C8_undecodable_buffer_fails_before_any_deck
           Scenario.undecodable (Scenario.chosen "broken.pdf")
           (Scenario.aFile "broken.pdf") (Rejected "InvalidPDFException")).
  - reflexivity.
  - reflexivity.
Defined.

(** C6. When the cycle of some page k throws, the run ends as a failure:
    the value caught is what the first faulty page j <= k threw, it is
    the only value caught, no blob is set and [write] is never called, the
    pages fetched are exactly 1..j (no page after the faulty one is
    touched), and slides were added only for the j - 1 pages before it.
    The component is left with the error message, the blob it had, and
    not generating.  The faults of a cycle are a rejected [getPage], a
    missing 2d context and a rejected [render]; appending the slide and
    its image does not throw. *)
Theorem C6_page_fault_aborts_the_run env s f pdf k t :
  file s = Some f ->
  getDocument env (arrayBuffer f) = inr pdf ->
  1 <= k <= numPages pdf ->
  pageOutcome env pdf k = inl t ->
  exists j t',
    1 <= j <= k /\
    pageOutcome env pdf j = inl t' /\
    outcome (trace (run env s)) = Failed t' /\
    consoleErrors (trace (run env s)) = [t'] /\
    blobsSet (trace (run env s)) = [] /\
    writeCalls (trace (run env s)) = 0%nat /\
    pagesFetched (trace (run env s)) = seqZ 1 j /\
    slidesAdded (trace (run env s)) = Z.to_nat (j - 1) /\
    pptxBlob (state (run env s)) = pptxBlob s /\
    error (state (run env s)) = Some errorMessage /\
    isGenerating (state (run env s)) = false.
Proof.
  intros Hf Hd Hk Hp.
  destruct (outcomes_stop env pdf (Z.to_nat (numPages pdf)) 1 (Z.to_nat (k - 1)) t)
    as (t' & Ht' & Hlen); [lia | rewrite <- Hp; f_equal; lia |].
  destruct (outcomes_fault env pdf _ _ _ Ht') as [_ Hj].
  pose proof (outcome_loaded env s f pdf Hf Hd) as Ho.
  pose proof (trace_loaded env s f pdf Hf Hd) as Htr.
  pose proof (run_loaded env s f pdf Hf Hd) as Hrun.
  destruct (outcomes env pdf (Z.to_nat (numPages pdf)) 1) as [rs ot].
  cbn [fst snd] in *. subst ot.
  exists (1 + Z.of_nat (length rs)), t'.
  destruct (faultEffects_readings env pdf (1 + Z.of_nat (length rs)))
    as (Fb & Fc & _ & Fp & _ & Fw & Fs).
  assert (Hb : blobsSet (trace (run env s)) = []).
  { rewrite Htr, !blobsSet_app, blobsSet_loop. unfold closing.
    rewrite blobsSet_app, Fb. reflexivity. }
  split; [lia|]. split; [exact Hj|]. split; [exact Ho|].
  split; [|split; [exact Hb|]].
  { rewrite Htr, !consoleErrors_app, consoleErrors_loop. unfold closing.
    rewrite consoleErrors_app, Fc. reflexivity. }
  split; [|split; [|split]].
  - rewrite Htr, !writeCalls_app, writeCalls_loop. unfold closing.
    rewrite writeCalls_app, Fw. reflexivity.
  - rewrite Htr, !pagesFetched_app, pagesFetched_loop. unfold closing.
    rewrite pagesFetched_app, Fp. cbn [opening pagesFetched omap list_omap failure].
    rewrite !app_nil_l, app_nil_r.
    replace (1 + Z.of_nat (length rs)) with (Z.of_nat (S (length rs))) at 2 by lia.
    now rewrite seqZ_S.
  - rewrite Htr, !slidesAdded_app, slidesAdded_loop. unfold closing.
    rewrite slidesAdded_app, Fs. cbn. lia.
  - split.
    + rewrite Htr in Hb. rewrite Hrun.
      now rewrite pptxBlob_emits by exact Hb.
    + rewrite Hrun. unfold closing.
      rewrite !app_assoc. apply state_after_failure.
Qed.

Lemma C6_witness :
  exists j t',
    1 <= j <= 2 /\
    pageOutcome (Scenario.browser Scenario.secondPageBroken) Scenario.secondPageBroken j
    = inl t' /\
    outcome (trace (run (Scenario.browser Scenario.secondPageBroken)
                      (Scenario.chosen "talk.pdf"))) = Failed t' /\
    consoleErrors (trace (run (Scenario.browser Scenario.secondPageBroken)
                            (Scenario.chosen "talk.pdf"))) = [t'] /\
    blobsSet (trace (run (Scenario.browser Scenario.secondPageBroken)
                       (Scenario.chosen "talk.pdf"))) = [] /\
    writeCalls (trace (run (Scenario.browser Scenario.secondPageBroken)
                         (Scenario.chosen "talk.pdf"))) = 0%nat /\
    pagesFetched (trace (run (Scenario.browser Scenario.secondPageBroken)
                           (Scenario.chosen "talk.pdf"))) = seqZ 1 j /\
    slidesAdded (trace (run (Scenario.browser Scenario.secondPageBroken)
                          (Scenario.chosen "talk.pdf"))) = Z.to_nat (j - 1) /\
    pptxBlob (state (run (Scenario.browser Scenario.secondPageBroken)
                       (Scenario.chosen "talk.pdf")))
    = pptxBlob (Scenario.chosen "talk.pdf") /\
    error (state (run (Scenario.browser Scenario.secondPageBroken)
                    (Scenario.chosen "talk.pdf"))) = Some errorMessage /\
    isGenerating (state (run (Scenario.browser Scenario.secondPageBroken)
                           (Scenario.chosen "talk.pdf"))) = false.
Proof.
  apply (C6_page_fault_aborts_the_run
           (Scenario.browser Scenario.secondPageBroken) (Scenario.chosen "talk.pdf")
           (Scenario.aFile "talk.pdf") Scenario.secondPageBroken 2
           (Rejected "RenderingCancelledException")).
  - reflexivity.
  - reflexivity.
  - simpl. lia.
  - reflexivity.
Defined.

(** C5, as the specification states it, fails: a document of zero pages
    whose presentation [write] accepts ends as a completed run, and the
    blob holds a presentation without slides; nothing is caught. *)
Lemma C5_zero_pages_complete_with_an_empty_deck :
  numPages (Scenario.letters 0) = 0 /\
  outcome (trace (run (Scenario.browser (Scenario.letters 0)) (Scenario.chosen "empty.pdf")))
  = Completed {| deck := new_pptxgen |} /\
  slides (deck {| deck := new_pptxgen |}) = [] /\
  consoleErrors (trace (run (Scenario.browser (Scenario.letters 0))
                          (Scenario.chosen "empty.pdf"))) = [] /\
  error (state (run (Scenario.browser (Scenario.letters 0)) (Scenario.chosen "empty.pdf")))
  = None.
Proof. vm_compute. repeat split. Qed.

(** C5, amended. A document of zero pages runs no page cycle: no page is
    fetched, no progress is reported, no slide is added.  The new
    presentation goes to [write] as it is, and the run completes with a
    blob of zero slides unless [write] itself rejects, in which case that
    rejection is the failure.  The code has no check of its own for an
    empty document. *)
Theorem C5_zero_pages_go_straight_to_write env s f pdf :
  file s = Some f ->
  getDocument env (arrayBuffer f) = inr pdf ->
  numPages pdf = 0 ->
  pagesFetched (trace (run env s)) = [] /\
  progressEvents (trace (run env s)) = [] /\
  slidesAdded (trace (run env s)) = 0%nat /\
  writeCalls (trace (run env s)) = 1%nat /\
  outcome (trace (run env s))
  = match write env new_pptxgen with
    | Some t => Failed t
    | None => Completed {| deck := new_pptxgen |}
    end.
Proof.
  intros Hf Hd HN.
  rewrite (outcome_loaded env s f pdf Hf Hd).
  rewrite (trace_loaded env s f pdf Hf Hd). rewrite HN.
  change (Z.to_nat 0) with 0%nat.
  cbn [outcomes fst snd loopEffects]. unfold closing.
  change (appendPages 1 [] new_pptxgen) with new_pptxgen.
  destruct (write env new_pptxgen); repeat apply conj; reflexivity.
Qed.

Lemma C5_witness :
  pagesFetched (trace (run (Scenario.browser (Scenario.letters 0))
                         (Scenario.chosen "empty.pdf"))) = [] /\
  progressEvents (trace (run (Scenario.browser (Scenario.letters 0))
                           (Scenario.chosen "empty.pdf"))) = [] /\
  slidesAdded (trace (run (Scenario.browser (Scenario.letters 0))
                        (Scenario.chosen "empty.pdf"))) = 0%nat /\
  writeCalls (trace (run (Scenario.browser (Scenario.letters 0))
                       (Scenario.chosen "empty.pdf"))) = 1%nat /\
  outcome (trace (run (Scenario.browser (Scenario.letters 0))
                    (Scenario.chosen "empty.pdf")))
  = match write (Scenario.browser (Scenario.letters 0)) new_pptxgen with
    | Some t => Failed t
    | None => Completed {| deck := new_pptxgen |}
    end.
Proof.
  apply (C5_zero_pages_go_straight_to_write
           (Scenario.browser (Scenario.letters 0)) (Scenario.chosen "empty.pdf")
           (Scenario.aFile "empty.pdf") (Scenario.letters 0)).
  - reflexivity.
  - reflexivity.
  - reflexivity.
Defined.

(** C3, as the specification states it, fails: in a run over 200 pages
    the value reported after page 29 is 14, while round(100 * 29 / 200) is
    15, both in exact arithmetic and as the JavaScript expression
    [Math.round(100 * 29 / 200)].  The program computes
    [Math.round((29 / 200) * 100)]: 29/200 rounds to the double just below
    0.145, and its product with 100 to 14.499999999999998. *)
Lemma C3_page_29_of_200_reports_14 :
  progressEvents (trace (run (Scenario.browser (Scenario.letters 200))
                           (Scenario.chosen "long.pdf"))) !! 28%nat = Some 14 /\
  percentExact 200 29 = 15 /\
  percentSpecJs 200 29 = 15.
Proof. vm_compute. repeat apply conj; reflexivity. Qed.

(** C3, amended. In a run over N >= 1 pages whose cycles all complete,
    the calls of [setProgress] are the reset to 0 followed by one value
    for each page; the value after page i is
    [Math.round((i / N) * 100)] evaluated in double precision (division
    first, then the product, each rounded); the N values are
    non-decreasing and the last one is exactly 100. *)
Theorem C3_progress_values_of_a_run env s f pdf :
  file s = Some f ->
  getDocument env (arrayBuffer f) = inr pdf ->
  1 <= numPages pdf ->
  (forall i, 1 <= i <= numPages pdf -> exists r, pageOutcome env pdf i = inr r) ->
  progressCalls (trace (run env s)) = 0 :: progressEvents (trace (run env s)) /\
  length (progressEvents (trace (run env s))) = Z.to_nat (numPages pdf) /\
  (forall i, 1 <= i <= numPages pdf ->
     progressEvents (trace (run env s)) !! Z.to_nat (i - 1)
     = Some (Math_round
               (jsmul (jsdiv (inject_Z i) (inject_Z (numPages pdf))) 100%Q))) /\
  (forall (a b : nat) x y, (a <= b)%nat ->
     progressEvents (trace (run env s)) !! a = Some x ->
     progressEvents (trace (run env s)) !! b = Some y ->
     x <= y) /\
  last (progressEvents (trace (run env s))) = Some 100.
Proof.
  intros Hf Hd HN Hall.
  destruct (progressEvents_loaded env s f pdf Hf Hd) as [E C].
  rewrite (outcomes_complete env pdf _ _ (outcomes_all_answer env pdf Hall)) in E.
  rewrite Z2Nat.id in E by lia.
  split; [exact C|]. rewrite E. clear C E.
  split; [now rewrite length_fmap, length_seqZ|].
  split; [intros i Hi; now rewrite percents_lookup_page|].
  split; [intros a b x y; apply percents_sorted; lia|].
  apply percents_last. lia.
Qed.

Lemma C3_witness :
  progressCalls (trace (run (Scenario.browser Scenario.threeLetters)
                          (Scenario.chosen "slides.pdf")))
  = 0 :: progressEvents (trace (run (Scenario.browser Scenario.threeLetters)
                                  (Scenario.chosen "slides.pdf"))) /\
  length (progressEvents (trace (run (Scenario.browser Scenario.threeLetters)
                                   (Scenario.chosen "slides.pdf"))))
  = Z.to_nat (numPages Scenario.threeLetters) /\
  (forall i, 1 <= i <= numPages Scenario.threeLetters ->
     progressEvents (trace (run (Scenario.browser Scenario.threeLetters)
                              (Scenario.chosen "slides.pdf"))) !! Z.to_nat (i - 1)
     = Some (Math_round
               (jsmul (jsdiv (inject_Z i) (inject_Z (numPages Scenario.threeLetters)))
                  100%Q))) /\
  (forall (a b : nat) x y, (a <= b)%nat ->
     progressEvents (trace (run (Scenario.browser Scenario.threeLetters)
                              (Scenario.chosen "slides.pdf"))) !! a = Some x ->
     progressEvents (trace (run (Scenario.browser Scenario.threeLetters)
                              (Scenario.chosen "slides.pdf"))) !! b = Some y ->
     x <= y) /\
  last (progressEvents (trace (run (Scenario.browser Scenario.threeLetters)
                                 (Scenario.chosen "slides.pdf")))) = Some 100.
Proof.
  apply (C3_progress_values_of_a_run
           (Scenario.browser Scenario.threeLetters) (Scenario.chosen "slides.pdf")
           (Scenario.aFile "slides.pdf") Scenario.threeLetters).
  - reflexivity.
  - reflexivity.
  - simpl. lia.
  - intros i Hi. simpl in Hi.
    assert (C : i = 1 \/ i = 2 \/ i = 3) by lia.
    destruct C as [-> | [-> | ->]]; eexists; reflexivity.
Defined.

(** C10, as stated, fails: in a run over 400 pages the value 100 is
    reported after page 398 already, so page N - 1 = 399 is not the first
    page at which it is emitted. *)
Lemma C10_page_398_of_400_reports_100 :
  progressEvents (trace (run (Scenario.browser (Scenario.letters 400))
                           (Scenario.chosen "long.pdf"))) !! 397%nat = Some 100 /\
  398 < 400 - 1.
Proof. vm_compute. repeat apply conj; reflexivity. Qed.

(** C10, amended. In a run over N >= 200 pages whose cycles all complete,
    the value 100 is reported after page N - 1, before the last page has
    completed.  Page N - 1 is the first page with that value when
    N < 400: every earlier value is below 100; when N >= 400 the value
    after page N - 2 is 100 already.  All values lie in [0, 100] and
    are non-decreasing. *)
Theorem C10_hundred_before_the_last_page env s f pdf :
  file s = Some f ->
  getDocument env (arrayBuffer f) = inr pdf ->
  200 <= numPages pdf ->
  (forall i, 1 <= i <= numPages pdf -> exists r, pageOutcome env pdf i = inr r) ->
  progressEvents (trace (run env s)) !! Z.to_nat (numPages pdf - 2) = Some 100 /\
  (numPages pdf < 400 ->
   forall i v, 1 <= i < numPages pdf - 1 ->
     progressEvents (trace (run env s)) !! Z.to_nat (i - 1) = Some v -> v < 100) /\
  (400 <= numPages pdf ->
   progressEvents (trace (run env s)) !! Z.to_nat (numPages pdf - 3) = Some 100) /\
  (forall (k : nat) v,
     progressEvents (trace (run env s)) !! k = Some v -> 0 <= v <= 100) /\
  (forall (a b : nat) x y, (a <= b)%nat ->
     progressEvents (trace (run env s)) !! a = Some x ->
     progressEvents (trace (run env s)) !! b = Some y ->
     x <= y).
Proof.
  intros Hf Hd HN Hall.
  destruct (progressEvents_loaded env s f pdf Hf Hd) as [E _].
  rewrite (outcomes_complete env pdf _ _ (outcomes_all_answer env pdf Hall)) in E.
  rewrite Z2Nat.id in E by lia. rewrite E. clear E.
  set (N := numPages pdf) in *.
  split; [|split; [|split; [|split]]].
  - replace (N - 2) with (N - 1 - 1) by lia.
    rewrite percents_lookup_page by lia. f_equal.
    apply percent_100_from; lia.
  - intros Hlt i v Hi Hv.
    rewrite percents_lookup_page in Hv by lia. injection Hv as <-.
    assert (percent N i <= 99); [|lia].
    apply percent_below_100; lia.
  - intros Hge. replace (N - 3) with (N - 2 - 1) by lia.
    rewrite percents_lookup_page by lia. f_equal.
    apply percent_100_from; lia.
  - intros k v Hv. apply percents_lookup in Hv as [-> Hk]. split.
    + apply percent_nonneg; lia.
    + apply percent_le_100; lia.
  - intros a b x y. apply percents_sorted. lia.
Qed.

Lemma C10_witness :
  progressEvents (trace (run (Scenario.browser (Scenario.letters 200))
                           (Scenario.chosen "long.pdf")))
    !! Z.to_nat (numPages (Scenario.letters 200) - 2) = Some 100 /\
  (numPages (Scenario.letters 200) < 400 ->
   forall i v, 1 <= i < numPages (Scenario.letters 200) - 1 ->
     progressEvents (trace (run (Scenario.browser (Scenario.letters 200))
                              (Scenario.chosen "long.pdf"))) !! Z.to_nat (i - 1) = Some v ->
     v < 100) /\
  (400 <= numPages (Scenario.letters 200) ->
   progressEvents (trace (run (Scenario.browser (Scenario.letters 200))
                            (Scenario.chosen "long.pdf")))
     !! Z.to_nat (numPages (Scenario.letters 200) - 3) = Some 100) /\
  (forall (k : nat) v,
     progressEvents (trace (run (Scenario.browser (Scenario.letters 200))
                              (Scenario.chosen "long.pdf"))) !! k = Some v ->
     0 <= v <= 100) /\
  (forall (a b : nat) x y, (a <= b)%nat ->
     progressEvents (trace (run (Scenario.browser (Scenario.letters 200))
                              (Scenario.chosen "long.pdf"))) !! a = Some x ->
     progressEvents (trace (run (Scenario.browser (Scenario.letters 200))
                              (Scenario.chosen "long.pdf"))) !! b = Some y ->
     x <= y).
Proof.
  apply (C10_hundred_before_the_last_page
           (Scenario.browser (Scenario.letters 200)) (Scenario.chosen "long.pdf")
           (Scenario.aFile "long.pdf") (Scenario.letters 200)).
  - reflexivity.
  - reflexivity.
  - simpl. lia.
  - intros i _. eexists. reflexivity.
Defined.




(** Below the relative difference of 2^-51 two different sides can give
    the same size: 1224 + 4 * 2^-42 and 1224 + 5 * 2^-42 pixels. *)
Remark close_sides_round_together :
  inches (1224 + (4 # 4398046511104))%Q = inches (1224 + (5 # 4398046511104))%Q /\
  (1224 + (4 # 4398046511104) < 1224 + (5 # 4398046511104))%Q.
Proof. vm_compute. split; reflexivity. Qed.




(** C9. The download is named by [file.name.replace('.pdf', '.pptx')],
    which replaces the first occurrence of ".pdf" wherever it stands: for
    the file "report.pdf.final.pdf" the download is named
    "report.pptx.final.pdf", not "report.pdf.final.pptx", and it still
    ends in ".pdf". *)
Theorem C9_first_occurrence_is_replaced :
  downloadPptx {| file := Some (Scenario.aFile "report.pdf.final.pdf");
                  isGenerating := false; progress := 100;
                  pptxBlob := Some {| deck := new_pptxgen |}; error := None |}
  = Some ("report.pptx.final.pdf", {| deck := new_pptxgen |}) /\
  file (handleFileChange (Some (Scenario.aFile "report.pdf.final.pdf")) Scenario.initial)
  = Some (Scenario.aFile "report.pdf.final.pdf") /\
  replace ".pdf" ".pptx" "slides.pdf" = "slides.pptx".
Proof. repeat apply conj; reflexivity. Qed.

(** * The rest of the component

    The other handlers of [App] and what it renders: [onDrop], the reset
    button of the error panel, and the conditions under which the button
    and the panels of the page are rendered. *)

Module Ui.

(** [onDrop] (lines 41-52), on the first file dropped. *)
Definition onDrop (droppedFile : option File) (s : AppState) : AppState :=
  match droppedFile with
  | Some f =>
      if String.eqb (type f) "application/pdf"
      then {| file := Some f; isGenerating := isGenerating s; progress := 0;
              pptxBlob := None; error := None |}
      else applyEffect (SetError (Some "PDF 파일만 업로드 가능합니다.")) s
  | None => applyEffect (SetError (Some "PDF 파일만 업로드 가능합니다.")) s
  end.

(** The [onClick] of "Reset System" (line 338):
    [setError(null); setFile(null)]. *)
Definition resetSystem (s : AppState) : AppState :=
  {| file := None; isGenerating := isGenerating s; progress := progress s;
     pptxBlob := pptxBlob s; error := None |}.

(** A string or [null] as a condition: [null] and the empty string are
    falsy. *)
Definition truthy (e : option string) : bool :=
  match e with
  | Some (String _ _) => true
  | _ => false
  end.

(** What the component renders, by the conditions of the JSX: the name
    shown in the drop zone (line 203), the button that starts the
    conversion (line 222), and the panels of the output pane: idle
    (line 251), generating with the progress it shows (lines 266, 279),
    complete with the download button (line 304), and the error with its
    message and the reset button (lines 328, 336). *)
Record View :=
  { title : string;
    convertButton : bool;
    idlePanel : bool;
    generatingPanel : option Z;
    completePanel : bool;
    errorPanel : option string }.

Definition view (s : AppState) : View :=
  {| title := match file s with
              | Some f => name f
              | None => "pdf파일을 넣으세요"
              end;
     convertButton :=
       bool_decide (is_Some (file s)) && negb (isGenerating s)
       && negb (bool_decide (is_Some (pptxBlob s)));
     idlePanel :=
       negb (isGenerating s) && negb (bool_decide (is_Some (pptxBlob s)))
       && negb (truthy (error s));
     generatingPanel := if isGenerating s then Some (progress s) else None;
     completePanel := bool_decide (is_Some (pptxBlob s));
     errorPanel := if truthy (error s) then error s else None |}.

(** Readings of a trace: the values given to [setIsGenerating] and to
    [setError]. *)
Definition generatingCalls (tr : list Effect) : list bool :=
  omap (fun e => match e with SetIsGenerating b => Some b | _ => None end) tr.

Definition errorCalls (tr : list Effect) : list (option string) :=
  omap (fun e => match e with SetError m => Some m | _ => None end) tr.

Definition renderCalls (tr : list Effect) : list Z :=
  omap (fun e => match e with Render i => Some i | _ => None end) tr.

(** [p] occurs in [s]. *)
Fixpoint occurs (p s : string) : bool :=
  match stripPrefix p s with
  | Some _ => true
  | None =>
      match s with
      | EmptyString => false
      | String _ s' => occurs p s'
      end
  end.


End Ui.

(** ** Facts on the state fields and the view *)

Module UiFacts.
Import Ui.

Lemma generatingCalls_app a b :
  generatingCalls (a ++ b) = generatingCalls a ++ generatingCalls b.
Proof. apply omap_app. Qed.

Lemma errorCalls_app a b : errorCalls (a ++ b) = errorCalls a ++ errorCalls b.
Proof. apply omap_app. Qed.

Lemma renderCalls_app a b : renderCalls (a ++ b) = renderCalls a ++ renderCalls b.
Proof. apply omap_app. Qed.

(** A state field after a list of effects: the last value its setter was
    given, or the value it had. *)
Lemma isGenerating_emits es : forall w,
  isGenerating (state (emits es w))
  = default (isGenerating (state w)) (last (generatingCalls es)).
Proof.
  induction es as [|e es IH]; intros w; [reflexivity|].
  change (emits (e :: es) w) with (emits es (emit e w)). rewrite IH.
  destruct e; try reflexivity.
  change (generatingCalls (SetIsGenerating b :: es)) with (b :: generatingCalls es).
  rewrite last_cons. destruct (last (generatingCalls es)); reflexivity.
Qed.

Lemma progress_emits es : forall w,
  progress (state (emits es w))
  = default (progress (state w)) (last (progressCalls es)).
Proof.
  induction es as [|e es IH]; intros w; [reflexivity|].
  change (emits (e :: es) w) with (emits es (emit e w)). rewrite IH.
  destruct e; try reflexivity.
  change (progressCalls (SetProgress p :: es)) with (p :: progressCalls es).
  rewrite last_cons. destruct (last (progressCalls es)); reflexivity.
Qed.

Lemma error_emits es : forall w,
  error (state (emits es w))
  = default (error (state w)) (last (errorCalls es)).
Proof.
  induction es as [|e es IH]; intros w; [reflexivity|].
  change (emits (e :: es) w) with (emits es (emit e w)). rewrite IH.
  destruct e; try reflexivity.
  change (errorCalls (SetError e :: es)) with (e :: errorCalls es).
  rewrite last_cons. destruct (last (errorCalls es)); reflexivity.
Qed.

Lemma pptxBlob_of_emits es : forall w,
  pptxBlob (state (emits es w))
  = match last (blobsSet es) with
    | Some b => Some b
    | None => pptxBlob (state w)
    end.
Proof.
  induction es as [|e es IH]; intros w; [reflexivity|].
  change (emits (e :: es) w) with (emits es (emit e w)). rewrite IH.
  destruct e; try reflexivity.
  change (blobsSet (SetPptxBlob b :: es)) with (b :: blobsSet es).
  rewrite last_cons. destruct (last (blobsSet es)); reflexivity.
Qed.

(** The readings of the parts of a trace. *)
Lemma loop_ui_readings N rs : forall i,
  generatingCalls (loopEffects N i rs) = [] /\
  errorCalls (loopEffects N i rs) = [] /\
  renderCalls (loopEffects N i rs) = seqZ i (Z.of_nat (length rs)).
Proof.
  induction rs as [|r rs IH]; intros i; [easy|].
  cbn [loopEffects length].
  rewrite generatingCalls_app, errorCalls_app, renderCalls_app.
  destruct (IH (i + 1)) as (-> & -> & ->).
  rewrite (seqZ_cons i) by lia.
  replace (Z.pred (Z.of_nat (S (length rs)))) with (Z.of_nat (length rs)) by lia.
  replace (Z.succ i) with (i + 1) by lia.
  unfold cycleEffects. destruct (i =? 1); easy.
Qed.

Lemma fault_ui_readings env pdf i :
  generatingCalls (faultEffects env pdf i) = [] /\
  errorCalls (faultEffects env pdf i) = [] /\
  renderCalls (faultEffects env pdf i)
  = match getPage pdf i with
    | inl _ => []
    | inr _ => if getContext2d env i then [i] else []
    end.
Proof.
  unfold faultEffects.
  destruct (getPage pdf i); [|destruct (getContext2d env i)]; easy.
Qed.

End UiFacts.

(** ** The shape of a run *)

Module RunShape.
Import Ui UiFacts.


Section Run.
Variable env : Env.

(** A run is the effects of its trace, from the state it started in. *)
Lemma run_is_its_trace s f :
  file s = Some f ->
  run env s = emits (trace (run env s)) {| state := s; trace := [] |}.
Proof.
  intros Hf. destruct (getDocument env (arrayBuffer f)) as [t|pdf] eqn:Hd.
  - rewrite (trace_decode_fault env s f t Hf Hd). exact (run_decode_fault env s f t Hf Hd).
  - rewrite (trace_loaded env s f pdf Hf Hd). exact (run_loaded env s f pdf Hf Hd).
Qed.

Lemma closing_shape pdf rs ot :
  exists cm,
    closing env pdf rs ot = cm ++ [SetIsGenerating false] /\
    generatingCalls cm = [].
Proof.
  unfold closing. destruct ot as [t|].
  - exists (faultEffects env pdf (1 + Z.of_nat (length rs))
            ++ [ConsoleError t; SetError (Some errorMessage)]).
    split; [now rewrite <- app_assoc|].
    rewrite generatingCalls_app.
    destruct (fault_ui_readings env pdf (1 + Z.of_nat (length rs))) as (-> & _).
    reflexivity.
  - destruct (write env (appendPages 1 rs new_pptxgen)) as [t|].
    + now exists [PptxWrite; ConsoleError t; SetError (Some errorMessage)].
    + now exists [PptxWrite; SetPptxBlob {| deck := appendPages 1 rs new_pptxgen |}].
Qed.

(** Every run with a file sets the generating flag first, clears it last,
    and does not touch it in between. *)
Lemma run_shape s f :
  file s = Some f ->
  exists mid,
    trace (run env s) = SetIsGenerating true :: mid ++ [SetIsGenerating false] /\
    generatingCalls mid = [].
Proof.
  intros Hf. destruct (getDocument env (arrayBuffer f)) as [t|pdf] eqn:Hd.
  - rewrite (trace_decode_fault env s f t Hf Hd).
    now exists [SetProgress 0; SetError None; GetDocument;
                ConsoleError t; SetError (Some errorMessage)].
  - rewrite (trace_loaded env s f pdf Hf Hd).
    destruct (closing_shape pdf
                (fst (outcomes env pdf (Z.to_nat (numPages pdf)) 1))
                (snd (outcomes env pdf (Z.to_nat (numPages pdf)) 1)))
      as (cm & -> & Hcm).
    exists ([SetProgress 0; SetError None; GetDocument; NewPptxgen]
            ++ loopEffects (numPages pdf) 1
                 (fst (outcomes env pdf (Z.to_nat (numPages pdf)) 1))
            ++ cm).
    split.
    + cbn [opening Datatypes.app]. now rewrite <- !app_assoc.
    + rewrite !generatingCalls_app, Hcm.
      destruct (loop_ui_readings (numPages pdf)
                  (fst (outcomes env pdf (Z.to_nat (numPages pdf)) 1)) 1) as (-> & _).
      reflexivity.
Qed.

(** The outcome and the state at the end of a run with a file: a blob and
    no error, or the error message and the blob there was. *)
Lemma final_state s f :
  file s = Some f ->
  match outcome (trace (run env s)) with
  | Completed b =>
      pptxBlob (state (run env s)) = Some b /\ error (state (run env s)) = None
  | Failed t =>
      pptxBlob (state (run env s)) = pptxBlob s /\
      error (state (run env s)) = Some errorMessage
  | NoOutcome => False
  end /\
  isGenerating (state (run env s)) = false /\
  file (state (run env s)) = Some f.
Proof.
  intros Hf. pose proof (run_is_its_trace s f Hf) as R.
  set (tr := trace (run env s)) in *. rewrite R. subst tr.
  rewrite !pptxBlob_of_emits, !error_emits, isGenerating_emits, file_emits.
  cbn [state]. split; [|split; [|exact Hf]].
  - destruct (getDocument env (arrayBuffer f)) as [t|pdf] eqn:Hd.
    + rewrite (trace_decode_fault env s f t Hf Hd). easy.
    + rewrite (outcome_loaded env s f pdf Hf Hd), (trace_loaded env s f pdf Hf Hd).
      rewrite !blobsSet_app, !errorCalls_app, blobsSet_loop.
      destruct (loop_ui_readings (numPages pdf)
                  (fst (outcomes env pdf (Z.to_nat (numPages pdf)) 1)) 1) as (_ & -> & _).
      unfold closing.
      destruct (snd (outcomes env pdf (Z.to_nat (numPages pdf)) 1)) as [t|].
      * rewrite blobsSet_app, errorCalls_app.
        destruct (faultEffects_readings env pdf
                    (1 + Z.of_nat (length (fst (outcomes env pdf (Z.to_nat (numPages pdf)) 1)))))
          as (-> & _).
        destruct (fault_ui_readings env pdf
                    (1 + Z.of_nat (length (fst (outcomes env pdf (Z.to_nat (numPages pdf)) 1)))))
          as (_ & -> & _).
        easy.
      * cbn zeta.
        destruct (write env (appendPages 1 (fst (outcomes env pdf (Z.to_nat (numPages pdf)) 1))
                               new_pptxgen)); easy.
  - destruct (run_shape s f Hf) as (mid & -> & Hm).
    change (generatingCalls (SetIsGenerating true :: mid ++ [SetIsGenerating false]))
      with (true :: generatingCalls (mid ++ [SetIsGenerating false])).
    rewrite generatingCalls_app, Hm. reflexivity.
Qed.

End Run.

End RunShape.

Module AccuracyFacts2.
Import AccuracyFacts.
Local Open Scope Q_scope.

Lemma inject_Z_sub a b : inject_Z (a - b) == inject_Z a - inject_Z b.
Proof. unfold Z.sub. rewrite inject_Z_plus, inject_Z_opp. ring. Qed.

(** [round(100 * i / N)], ties up, on integers. *)
Lemma percentExact_div N i :
  (0 <= i)%Z -> (0 < N)%Z -> percentExact N i = ((200 * i + N) / (2 * N))%Z.
Proof.
  intros Hi HN. unfold percentExact, Math_round.
  rewrite Zdiv_Qdiv. apply Qfloor_comp.
  rewrite inject_Z_plus, !inject_Z_mult.
  change (inject_Z 200) with 200. change (inject_Z 2) with 2.
  rewrite Zlt_Qlt in HN. change (inject_Z 0) with 0 in HN. field. lra.
Qed.

(** The value of the program against the exact one: equal, or one less
    at an exact tie. *)
Lemma percent_accuracy N i :
  (1 <= i)%Z -> (i <= N)%Z -> (N < 2 ^ 44)%Z ->
  percent N i = ((200 * i + N) / (2 * N))%Z \/
  (((200 * i + N) mod (2 * N))%Z = 0%Z /\
   percent N i = ((200 * i + N) / (2 * N) - 1)%Z).
Proof.
  intros Hi HN Hb.
  destruct (product_error N i Hi HN) as [Lo Hi'].
  set (p := jsmul (jsdiv (inject_Z i) (inject_Z N)) 100) in *.
  change (percent N i) with (Qfloor (p + (1 # 2))).
  set (T := (200 * i + N)%Z). set (m := (T / (2 * N))%Z). set (r := (T mod (2 * N))%Z).
  assert (HT : T = (2 * N * m + r)%Z) by (apply Z.div_mod; lia).
  assert (Hr : (0 <= r < 2 * N)%Z) by (apply Z.mod_pos_bound; lia).
  assert (Ea : (100 * inject_Z i / inject_Z N + (1 # 2)) * (2 * inject_Z N)
               == 2 * inject_Z N * inject_Z m + inject_Z r).
  { assert (HTq : inject_Z T == 2 * inject_Z N * inject_Z m + inject_Z r).
    { rewrite HT at 1. rewrite inject_Z_plus, !inject_Z_mult. reflexivity. }
    assert (HTd : inject_Z T == 200 * inject_Z i + inject_Z N).
    { unfold T. rewrite inject_Z_plus, inject_Z_mult. reflexivity. }
    rewrite <- HTq, HTd.
    assert (0 < inject_Z N) by (change 0 with (inject_Z 0); rewrite <- Zlt_Qlt; lia).
    field. lra. }
  set (a := 100 * inject_Z i / inject_Z N + (1 # 2)) in *.
  assert (Lo' : a - 200 * eps <= p + (1 # 2)) by (unfold a; lra).
  assert (Hi'' : p + (1 # 2) <= a + 200 * eps) by (unfold a; lra).
  clearbody a p. clear Lo Hi'.
  assert (Nq : 1 <= inject_Z N) by (change 1 with (inject_Z 1); rewrite <- Zle_Qle; lia).
  assert (Nb : inject_Z N <= 17592186044415).
  { change 17592186044415 with (inject_Z (2 ^ 44 - 1)). rewrite <- Zle_Qle. lia. }
  assert (R0 : 0 <= inject_Z r) by (change 0 with (inject_Z 0); rewrite <- Zle_Qle; lia).
  assert (R1 : inject_Z r <= 2 * inject_Z N - 1).
  { assert (R1' : inject_Z (r + 1) <= inject_Z (2 * N)) by (rewrite <- Zle_Qle; lia).
    rewrite inject_Z_plus, inject_Z_mult in R1'.
    change (inject_Z 1) with 1 in R1'. change (inject_Z 2) with 2 in R1'. lra. }
  unfold eps in *.
  destruct (Z.eq_dec r 0%Z) as [Z0|NZ].
  - rewrite Z0 in Ea. change (inject_Z 0) with 0 in Ea.
    assert (Am : a == inject_Z m) by nra.
    destruct (Qlt_le_dec (p + (1 # 2)) (inject_Z m)) as [Below|Above].
    + right. split; [exact Z0|]. apply Qfloor_unique.
      * rewrite inject_Z_sub. change (inject_Z 1) with 1. lra.
      * replace (m - 1 + 1)%Z with m by lia. exact Below.
    + left. apply Qfloor_unique; [exact Above|].
      rewrite inject_Z_plus. change (inject_Z 1) with 1. lra.
  - left.
    assert (R2 : 1 <= inject_Z r) by (change 1 with (inject_Z 1); rewrite <- Zle_Qle; lia).
    apply Qfloor_unique.
    + assert (inject_Z m + 200 * (1 # 9007199254740992) <= a); [|lra].
      assert ((inject_Z m + 200 * (1 # 9007199254740992)) * (2 * inject_Z N)
              <= a * (2 * inject_Z N)) by nra.
      nra.
    + rewrite inject_Z_plus. change (inject_Z 1) with 1.
      assert (a + 200 * (1 # 9007199254740992) < inject_Z m + 1); [|lra].
      assert ((a + 200 * (1 # 9007199254740992)) * (2 * inject_Z N)
              < (inject_Z m + 1) * (2 * inject_Z N)) by nra.
      nra.
Qed.

End AccuracyFacts2.

(** ** Facts for the further properties *)

Module CoverageFacts.
Import Ui UiFacts RunShape AccuracyFacts AccuracyFacts2.



Lemma stripPrefix_Some p : forall s rest,
  stripPrefix p s = Some rest -> s = String.append p rest.
Proof.
  induction p as [|a p IH]; intros s rest H.
  - cbn [stripPrefix] in H. destruct s; now injection H as <-.
  - destruct s as [|b s]; [discriminate|]. cbn [stripPrefix] in H.
    destruct (Ascii.eqb_spec a b) as [<-|]; [|discriminate].
    apply IH in H as ->. reflexivity.
Qed.

(** [replace] leaves a string without the pattern as it is, and
    otherwise replaces the first occurrence and nothing else. *)
Lemma replace_cases p r : forall s,
  (occurs p s = false /\ replace p r s = s) \/
  (exists a b,
     s = String.append a (String.append p b) /\
     occursBefore p a (String.append p b) = false /\
     replace p r s = String.append a (String.append r b)).
Proof.
  induction s as [|c s IH].
  - rewrite replace_unfold. cbn [occurs].
    destruct (stripPrefix p EmptyString) as [rest|] eqn:E; [|now left].
    right. exists EmptyString, rest. apply stripPrefix_Some in E.
    split; [exact E | split; reflexivity].
  - rewrite replace_unfold. cbn [occurs].
    destruct (stripPrefix p (String c s)) as [rest|] eqn:E.
    + right. exists EmptyString, rest. apply stripPrefix_Some in E.
      split; [exact E | split; reflexivity].
    + destruct IH as [[O R]|(a & b & -> & O & R)].
      * left. now rewrite R.
      * right. exists (String c a), b. split; [reflexivity|]. split.
        -- cbn [occursBefore].
           change (String.append (String c a) (String.append p b))
             with (String c (String.append a (String.append p b))).
           now rewrite E.
        -- now rewrite R.
Qed.

Section Run.
Variable env : Env.

(** The first page that throws, when every page before it answers. *)
Lemma first_fault pdf k t :
  1 <= k <= numPages pdf ->
  (forall j, 1 <= j < k -> exists r, pageOutcome env pdf j = inr r) ->
  pageOutcome env pdf k = inl t ->
  snd (outcomes env pdf (Z.to_nat (numPages pdf)) 1) = Some t /\
  length (fst (outcomes env pdf (Z.to_nat (numPages pdf)) 1)) = Z.to_nat (k - 1).
Proof.
  intros Hk Hbefore Hp.
  destruct (outcomes_stop env pdf (Z.to_nat (numPages pdf)) 1 (Z.to_nat (k - 1)) t)
    as (t' & Ht' & Hlen); [lia | rewrite <- Hp; f_equal; lia |].
  destruct (outcomes_fault env pdf _ _ _ Ht') as [_ Hj].
  set (n := length (fst (outcomes env pdf (Z.to_nat (numPages pdf)) 1))) in *.
  destruct (Nat.eq_dec n (Z.to_nat (k - 1))) as [E|NE].
  - split; [|exact E]. rewrite Ht'. f_equal.
    replace (1 + Z.of_nat n) with k in Hj by lia. congruence.
  - destruct (Hbefore (1 + Z.of_nat n)) as [r Hr]; [lia | congruence].
Qed.

(** The trace of a run depends on the state only through the file. *)
Lemma trace_by_file s s' :
  file s = file s' -> trace (run env s) = trace (run env s').
Proof.
  intros E. destruct (file s) as [f|] eqn:Hf.
  - symmetry in E. destruct (getDocument env (arrayBuffer f)) as [t|pdf] eqn:Hd.
    + now rewrite (trace_decode_fault env s f t Hf Hd), (trace_decode_fault env s' f t E Hd).
    + now rewrite (trace_loaded env s f pdf Hf Hd), (trace_loaded env s' f pdf E Hd).
  - symmetry in E. now rewrite (run_no_file env s Hf), (run_no_file env s' E).
Qed.

End Run.

End CoverageFacts.

Module Cases.
Import Ui.

Definition slidesFile : File := Scenario.aFile "slides.pdf".
Definition slidesState : AppState := Scenario.chosen "slides.pdf".
Definition okEnv : Env := Scenario.browser Scenario.threeLetters.
Definition brokenEnv : Env := Scenario.browser Scenario.secondPageBroken.

(** A browser that gives no 2d context in the cycle of page 2. *)
Definition noContextAtTwo : Env :=
  {| getDocument := fun _ => inr Scenario.threeLetters;
     getContext2d := fun i => negb (i =? 2);
     write := fun _ => None |}.

Definition picture : File :=
  {| name := "photo.png"; type := "image/png"; arrayBuffer := [] |}.

(** The state after a completed conversion of "slides.pdf". *)
Definition converted : AppState := state (run okEnv slidesState).

End Cases.

Module CoverageFacts2.
Import Ui UiFacts RunShape AccuracyFacts AccuracyFacts2 CoverageFacts.

Lemma lookup_percents_prefix N (len k : nat) v :
  (percent N <$> seqZ 1 (Z.of_nat len)) !! k = Some v ->
  v = percent N (1 + Z.of_nat k) /\ (k < len)%nat.
Proof.
  rewrite list_lookup_fmap.
  destruct (seqZ 1 (Z.of_nat len) !! k) as [i|] eqn:E; [|discriminate].
  apply lookup_seqZ in E as [-> L]. intros [= <-]. split; [reflexivity | lia].
Qed.

(** The values of a list [0 :: percents of the first len pages]. *)
Lemma reset_then_percents N (len : nat) l :
  l = 0 :: (percent N <$> seqZ 1 (Z.of_nat len)) ->
  (len <= Z.to_nat N)%nat ->
  (forall (k : nat) v, l !! k = Some v -> 0 <= v <= 100) /\
  (forall (a b : nat) x y, (a <= b)%nat ->
     l !! a = Some x -> l !! b = Some y -> x <= y).
Proof.
  intros -> Hlen.
  assert (R : forall (k : nat) v,
             (0 :: (percent N <$> seqZ 1 (Z.of_nat len))) !! k = Some v ->
             (k = 0%nat /\ v = 0) \/
             (exists k', k = S k' /\ v = percent N (1 + Z.of_nat k') /\ (k' < len)%nat)).
  { intros [|k'] v H.
    - left. now injection H as <-.
    - right. exists k'. cbn in H. apply lookup_percents_prefix in H as [-> L]. easy. }
  split.
  - intros k v H. destruct (R k v H) as [[_ ->]|(k' & _ & -> & L)]; [lia|]. split.
    + apply percent_nonneg; lia.
    + apply percent_le_100; lia.
  - intros a b x y Hab Ha Hb.
    destruct (R a x Ha) as [[-> ->]|(a' & -> & -> & La)];
      destruct (R b y Hb) as [[-> ->]|(b' & -> & -> & Lb)]; try lia.
    + apply percent_nonneg; lia.
    + apply percent_mono; lia.
Qed.

Section Run.
Variable env : Env.

(** The calls of [setProgress] of any run with a file. *)
Lemma progressCalls_of_run s f :
  file s = Some f ->
  exists N (len : nat),
    progressCalls (trace (run env s)) = 0 :: (percent N <$> seqZ 1 (Z.of_nat len)) /\
    (len <= Z.to_nat N)%nat.
Proof.
  intros Hf. destruct (getDocument env (arrayBuffer f)) as [t|pdf] eqn:Hd.
  - exists 0, 0%nat. rewrite (trace_decode_fault env s f t Hf Hd). easy.
  - exists (numPages pdf),
      (length (fst (outcomes env pdf (Z.to_nat (numPages pdf)) 1))).
    destruct (progressEvents_loaded env s f pdf Hf Hd) as [E ->]. rewrite E.
    split; [reflexivity | apply outcomes_length].
Qed.

Lemma final_progress s f :
  file s = Some f ->
  last (progressCalls (trace (run env s))) = Some (progress (state (run env s))).
Proof.
  intros Hf. pose proof (run_is_its_trace env s f Hf) as R.
  destruct (progressCalls_of_run s f Hf) as (N & len & E & _).
  set (tr := trace (run env s)) in *. rewrite R, progress_emits.
  destruct (last (progressCalls tr)) as [v|] eqn:L; [reflexivity|].
  apply last_None in L. rewrite E in L. discriminate.
Qed.

End Run.

End CoverageFacts2.

(** * What the user does while a run is suspended

    [convertPdfToPptx] is an [async] function: it is suspended at every
    [await], and the handlers of the component stay live meanwhile.  None
    of them tests [isGenerating].  The state a run ends in is the state
    its effects and the handlers called in between leave, in the order
    they take place. *)

Module Live.
Import JsNumber Pptxgen App Summary Ui.
Local Open Scope Z_scope.

(** What the user can do: choose a file ([handleFileChange], lines
    29-39), drop one ([onDrop], lines 41-52), press "Reset System"
    (line 338). *)
Inductive Action :=
| Choose (selectedFile : option File)
| Drop (droppedFile : option File)
| Reset.

Definition act (s : AppState) (a : Action) : AppState :=
  match a with
  | Choose selectedFile => handleFileChange selectedFile s
  | Drop droppedFile => onDrop droppedFile s
  | Reset => resetSystem s
  end.

(** The calls whose promise is awaited (lines 63, 69, 81-87, 113): the
    function is suspended once the call is made.  No setter is called
    between the [await] of [file.arrayBuffer()] (line 62) and the call of
    [getDocument]: what is handled during either is handled between the
    same two setters, and counts with [GetDocument]. *)
Definition awaited (e : Effect) : bool :=
  match e with
  | GetDocument | GetPage _ | Render _ | PptxWrite => true
  | _ => false
  end.

(** The state at the end of a run of effects [tr] from state [s], when
    the actions of the k-th list of [arrivals] are handled while the run
    is suspended for the k-th time.  Lists beyond the last suspension are
    not handled during the run. *)
Fixpoint disturbed (arrivals : list (list Action)) (tr : list Effect)
    (s : AppState) : AppState :=
  match tr with
  | [] => s
  | e :: tr' =>
      let s' := applyEffect e s in
      if awaited e
      then
        match arrivals with
        | [] => disturbed [] tr' s'
        | acts :: rest => disturbed rest tr' (foldl act s' acts)
        end
      else disturbed arrivals tr' s'
  end.

(** The number of suspensions of a trace, and the actions handled during
    it, in order. *)
Definition awaits (tr : list Effect) : nat := length (List.filter awaited tr).

Definition handled (arrivals : list (list Action)) (tr : list Effect) : list Action :=
  concat (take (awaits tr) arrivals).

(** Arrivals: a picture dropped while page 1 is fetched, and another PDF
    chosen while page 1 is rendered. *)
Definition pictureDropped : list (list Action) :=
  [[]; [Drop (Some Cases.picture)]].

Definition otherChosen : list (list Action) :=
  [[]; []; [Choose (Some (Scenario.aFile "other.pdf"))]].

(** Another PDF chosen while [write] is awaited, after the three pages
    of the document. *)
Definition chosenWhileWriting : list (list Action) :=
  [[]; []; []; []; []; []; []; [Choose (Some (Scenario.aFile "other.pdf"))]].

End Live.

Module LiveFacts.
Import JsNumber Pptxgen App Summary Ui Live.
Import AppFacts SummaryFacts RunFacts UiFacts RunShape.
Local Open Scope Z_scope.

(** With no arrivals the state is that of the effects alone. *)
Lemma disturbed_none tr : forall s,
  disturbed [] tr s = foldl (fun s e => applyEffect e s) s tr.
Proof.
  induction tr as [|e tr IH]; intros s; [reflexivity|].
  cbn [disturbed foldl]. destruct (awaited e); apply IH.
Qed.

(** A part of a trace without suspension is not disturbed. *)
Lemma disturbed_quiet b :
  forallb (fun e => negb (awaited e)) b = true ->
  forall arrivals s,
    disturbed arrivals b s = foldl (fun s e => applyEffect e s) s b.
Proof.
  induction b as [|e b IH]; intros Q arrivals s; [reflexivity|].
  cbn [forallb] in Q. apply andb_prop in Q as [Qe Qb].
  cbn [disturbed foldl]. destruct (awaited e); [discriminate Qe|].
  now apply IH.
Qed.

Lemma disturbed_app_quiet a b :
  forallb (fun e => negb (awaited e)) b = true ->
  forall arrivals s,
    disturbed arrivals (a ++ b) s
    = foldl (fun s e => applyEffect e s) (disturbed arrivals a s) b.
Proof.
  intros Q. induction a as [|e a IH]; intros arrivals s.
  - now apply disturbed_quiet.
  - cbn [Datatypes.app disturbed].
    destruct (awaited e); [destruct arrivals|]; apply IH.
Qed.

(** No handler touches the generating flag. *)
Lemma isGenerating_act s a : isGenerating (act s a) = isGenerating s.
Proof.
  destruct a as [[f|]|[f|]|]; cbn [act]; unfold handleFileChange, onDrop;
    try destruct (String.eqb (type f) "application/pdf"); reflexivity.
Qed.

Lemma isGenerating_acts acts : forall s,
  isGenerating (foldl act s acts) = isGenerating s.
Proof.
  induction acts as [|a acts IH]; intros s; [reflexivity|].
  cbn [foldl]. now rewrite IH, isGenerating_act.
Qed.

Lemma isGenerating_disturbed tr : forall arrivals s,
  isGenerating (disturbed arrivals tr s)
  = default (isGenerating s) (last (generatingCalls tr)).
Proof.
  induction tr as [|e tr IH]; intros arrivals s; [reflexivity|].
  cbn [disturbed].
  destruct e; cbn [awaited];
    try (destruct arrivals; rewrite IH, ?isGenerating_acts; reflexivity).
  rewrite IH.
  change (generatingCalls (SetIsGenerating b :: tr)) with (b :: generatingCalls tr).
  rewrite last_cons. destruct (last (generatingCalls tr)); reflexivity.
Qed.

(** A handler clears the blob or leaves it: it never sets one. *)
Lemma pptxBlob_act_none s a : pptxBlob s = None -> pptxBlob (act s a) = None.
Proof.
  intros H. destruct a as [[f|]|[f|]|]; cbn [act]; unfold handleFileChange, onDrop;
    try destruct (String.eqb (type f) "application/pdf"); easy.
Qed.

Lemma pptxBlob_acts_none acts : forall s,
  pptxBlob s = None -> pptxBlob (foldl act s acts) = None.
Proof.
  induction acts as [|a acts IH]; intros s H; [exact H|].
  cbn [foldl]. now apply IH, pptxBlob_act_none.
Qed.

Lemma pptxBlob_disturbed_none tr : forall arrivals s,
  blobsSet tr = [] -> pptxBlob s = None ->
  pptxBlob (disturbed arrivals tr s) = None.
Proof.
  induction tr as [|e tr IH]; intros arrivals s B H; [exact H|].
  cbn [disturbed].
  destruct e; try discriminate B; cbn [awaited]; try destruct arrivals;
    apply IH; try exact B; try exact H; now apply pptxBlob_acts_none.
Qed.

(** The file after handlers depends on the state through the file only,
    and no effect of a run changes it. *)
Lemma file_act_by_file s s' a :
  file s = file s' -> file (act s a) = file (act s' a).
Proof.
  intros H. destruct a as [[f|]|[f|]|]; cbn [act]; unfold handleFileChange, onDrop;
    try destruct (String.eqb (type f) "application/pdf"); easy.
Qed.

Lemma file_acts_by_file acts : forall s s',
  file s = file s' -> file (foldl act s acts) = file (foldl act s' acts).
Proof.
  induction acts as [|a acts IH]; intros s s' H; [exact H|].
  cbn [foldl]. now apply IH, file_act_by_file.
Qed.

Lemma file_applyEffect e s : file (applyEffect e s) = file s.
Proof. destruct e; reflexivity. Qed.

Lemma file_disturbed tr : forall arrivals s,
  file (disturbed arrivals tr s) = file (foldl act s (handled arrivals tr)).
Proof.
  unfold handled, awaits.
  induction tr as [|e tr IH]; intros arrivals s; [reflexivity|].
  cbn [disturbed List.filter]. destruct (awaited e).
  - destruct arrivals as [|acts rest].
    + rewrite IH, !take_nil. cbn. apply file_applyEffect.
    + rewrite IH. cbn [length take concat]. rewrite foldl_app.
      apply file_acts_by_file, file_acts_by_file, file_applyEffect.
  - rewrite IH. apply file_acts_by_file, file_applyEffect.
Qed.

(** A handler leaves the progress or resets it to 0. *)
Lemma progress_act s a : progress (act s a) = progress s \/ progress (act s a) = 0.
Proof.
  destruct a as [[f|]|[f|]|]; cbn [act]; unfold handleFileChange, onDrop;
    try destruct (String.eqb (type f) "application/pdf"); auto.
Qed.

Lemma progress_acts acts : forall s,
  progress (foldl act s acts) = progress s \/ progress (foldl act s acts) = 0.
Proof.
  induction acts as [|a acts IH]; intros s; [now left|].
  cbn [foldl]. destruct (IH (act s a)) as [E|E]; [|now right].
  rewrite E. apply progress_act.
Qed.

Lemma progress_disturbed tr : forall arrivals s,
  progress (disturbed arrivals tr s) = 0 \/
  progress (disturbed arrivals tr s) = default (progress s) (last (progressCalls tr)).
Proof.
  induction tr as [|e tr IH]; intros arrivals s; [now right|].
  assert (Step : forall arr (s' : AppState),
             progressCalls (e :: tr) = progressCalls tr ->
             progress s' = progress s \/ progress s' = 0 ->
             progress (disturbed arr tr s') = 0 \/
             progress (disturbed arr tr s')
             = default (progress s) (last (progressCalls (e :: tr)))).
  { intros arr s' -> Hs'. destruct (IH arr s') as [Z0|E]; [now left|].
    rewrite E. destruct (last (progressCalls tr)) as [v|]; [now right|].
    cbn [default]. destruct Hs' as [->| ->]; auto. }
  cbn [disturbed].
  destruct e; cbn [awaited];
    try (destruct arrivals as [|acts rest];
         (apply Step; [reflexivity|]); cbn [applyEffect];
         first [now left | apply progress_acts]).
  destruct (IH arrivals (applyEffect (SetProgress p) s)) as [Z0|E]; [now left|].
  right. rewrite E.
  change (progressCalls (SetProgress p :: tr)) with (p :: progressCalls tr).
  rewrite last_cons. destruct (last (progressCalls tr)); reflexivity.
Qed.

Section Run.
Variable env : Env.

(** With no arrival the state is that of the run. *)
Lemma undisturbed s f :
  file s = Some f -> disturbed [] (trace (run env s)) s = state (run env s).
Proof.
  intros Hf. rewrite disturbed_none.
  rewrite (run_is_its_trace env s f Hf) at 2. now rewrite state_emits.
Qed.

(** How a run with a file ends: with the blob and the flag, or with the
    [catch] block, no blob having been set. *)
Lemma run_ending s f :
  file s = Some f ->
  (exists pre b,
     trace (run env s) = pre ++ [SetPptxBlob b; SetIsGenerating false] /\
     outcome (trace (run env s)) = Completed b) \/
  (exists pre t,
     trace (run env s) = pre ++ failure t /\
     outcome (trace (run env s)) = Failed t /\
     blobsSet pre = []).
Proof.
  intros Hf. destruct (getDocument env (arrayBuffer f)) as [t|pdf] eqn:Hd.
  - right. exists opening, t. rewrite (trace_decode_fault env s f t Hf Hd). easy.
  - rewrite (outcome_loaded env s f pdf Hf Hd), (trace_loaded env s f pdf Hf Hd).
    set (rs := fst (outcomes env pdf (Z.to_nat (numPages pdf)) 1)).
    assert (B : forall tl, blobsSet tl = [] ->
                  blobsSet (opening ++ [NewPptxgen]
                            ++ loopEffects (numPages pdf) 1 rs ++ tl) = []).
    { intros tl Htl. now rewrite !blobsSet_app, blobsSet_loop, Htl. }
    unfold closing. fold rs.
    destruct (snd (outcomes env pdf (Z.to_nat (numPages pdf)) 1)) as [t|].
    + right.
      exists (opening ++ [NewPptxgen] ++ loopEffects (numPages pdf) 1 rs
              ++ faultEffects env pdf (1 + Z.of_nat (length rs))), t.
      split; [now rewrite <- !app_assoc|]. split; [reflexivity|].
      apply B. apply (faultEffects_readings env pdf).
    + cbn zeta. destruct (write env (appendPages 1 rs new_pptxgen)) as [t|].
      * right.
        exists (opening ++ [NewPptxgen] ++ loopEffects (numPages pdf) 1 rs
                ++ [PptxWrite]), t.
        split; [now rewrite <- !app_assoc|]. split; [reflexivity|]. now apply B.
      * left.
        exists (opening ++ [NewPptxgen] ++ loopEffects (numPages pdf) 1 rs
                ++ [PptxWrite]), {| deck := appendPages 1 rs new_pptxgen |}.
        split; [now rewrite <- !app_assoc | reflexivity].
Qed.

(** The end of a run, whatever is handled while it is suspended: the
    flag is cleared; a completed run leaves its blob, a failed run the
    message of the [catch] block and no blob. *)
Lemma disturbed_ending arrivals s f :
  file s = Some f ->
  pptxBlob s = None ->
  isGenerating (disturbed arrivals (trace (run env s)) s) = false /\
  match outcome (trace (run env s)) with
  | Completed b => pptxBlob (disturbed arrivals (trace (run env s)) s) = Some b
  | Failed t =>
      pptxBlob (disturbed arrivals (trace (run env s)) s) = None /\
      error (disturbed arrivals (trace (run env s)) s) = Some errorMessage
  | NoOutcome => False
  end.
Proof.
  intros Hf Hb.
  destruct (run_ending s f Hf) as [(pre & b & -> & ->)|(pre & t & -> & -> & B)].
  - rewrite disturbed_app_quiet by reflexivity. split; reflexivity.
  - rewrite disturbed_app_quiet by reflexivity. split; [reflexivity|].
    split; [|reflexivity].
    cbn [failure foldl applyEffect pptxBlob].
    now apply pptxBlob_disturbed_none.
Qed.

End Run.

End LiveFacts.

(** * Further properties of the component *)

Import Ui UiFacts RunShape AccuracyFacts AccuracyFacts2 CoverageFacts CoverageFacts2.
Import Live LiveFacts.

(** X1. A selection that is refused (no file, or a file whose type is not
    application/pdf), by the file input or by a drop, changes nothing but
    the error message: the file chosen before, the blob, the progress and
    the generating flag stay, so the download offered is the same and a
    complete panel that was rendered still is, beside the error panel. *)
Theorem refused_selection_changes_only_the_error sel s :
  (forall f, sel = Some f -> String.eqb (type f) "application/pdf" = false) ->
  handleFileChange sel s
  = {| file := file s; isGenerating := isGenerating s; progress := progress s;
       pptxBlob := pptxBlob s; error := Some "PDF 파일만 업로드 가능합니다." |} /\
  onDrop sel s = handleFileChange sel s /\
  downloadPptx (handleFileChange sel s) = downloadPptx s /\
  completePanel (view (handleFileChange sel s)) = completePanel (view s) /\
  convertButton (view (handleFileChange sel s)) = convertButton (view s) /\
  errorPanel (view (handleFileChange sel s)) = Some "PDF 파일만 업로드 가능합니다.".
Proof.
  intros H. unfold handleFileChange, onDrop.
  destruct sel as [f|]; [rewrite (H f eq_refl)|]; repeat apply conj; reflexivity.
Qed.

Lemma refused_selection_witness :
  handleFileChange (Some Cases.picture) Cases.converted
  = {| file := file Cases.converted; isGenerating := isGenerating Cases.converted;
       progress := progress Cases.converted; pptxBlob := pptxBlob Cases.converted;
       error := Some "PDF 파일만 업로드 가능합니다." |} /\
  onDrop (Some Cases.picture) Cases.converted
  = handleFileChange (Some Cases.picture) Cases.converted /\
  downloadPptx (handleFileChange (Some Cases.picture) Cases.converted)
  = downloadPptx Cases.converted /\
  completePanel (view (handleFileChange (Some Cases.picture) Cases.converted))
  = completePanel (view Cases.converted) /\
  convertButton (view (handleFileChange (Some Cases.picture) Cases.converted))
  = convertButton (view Cases.converted) /\
  errorPanel (view (handleFileChange (Some Cases.picture) Cases.converted))
  = Some "PDF 파일만 업로드 가능합니다.".
Proof.
  apply (refused_selection_changes_only_the_error (Some Cases.picture) Cases.converted).
  intros f [= <-]. reflexivity.
Defined.

(** X2. A PDF that is chosen or dropped replaces the selection and
    discards what the component held: the blob and the error are cleared
    and the progress is 0, so no download is offered any more, neither
    the complete nor the error panel is rendered, and the button that
    starts the conversion is rendered unless a conversion is running. *)
Theorem accepted_selection_discards_the_previous_result f s :
  type f = "application/pdf" ->
  onDrop (Some f) s = handleFileChange (Some f) s /\
  downloadPptx (handleFileChange (Some f) s) = None /\
  view (handleFileChange (Some f) s)
  = {| title := name f;
       convertButton := negb (isGenerating s);
       idlePanel := negb (isGenerating s);
       generatingPanel := if isGenerating s then Some 0 else None;
       completePanel := false;
       errorPanel := None |}.
Proof.
  intros H. unfold handleFileChange, onDrop, downloadPptx, view. rewrite H.
  cbn. destruct (isGenerating s); repeat apply conj; reflexivity.
Qed.

Lemma accepted_selection_witness :
  onDrop (Some Cases.slidesFile) Cases.converted
  = handleFileChange (Some Cases.slidesFile) Cases.converted /\
  downloadPptx (handleFileChange (Some Cases.slidesFile) Cases.converted) = None /\
  view (handleFileChange (Some Cases.slidesFile) Cases.converted)
  = {| title := name Cases.slidesFile;
       convertButton := negb (isGenerating Cases.converted);
       idlePanel := negb (isGenerating Cases.converted);
       generatingPanel := if isGenerating Cases.converted then Some 0 else None;
       completePanel := false;
       errorPanel := None |}.
Proof.
  apply (accepted_selection_discards_the_previous_result Cases.slidesFile Cases.converted).
  reflexivity.
Defined.



(** X4. How a run started where the button is rendered (a file, no blob)
    ends, whatever is chosen, dropped or reset while it is suspended.
    The generating panel is gone.  Completed: the blob of the run is held
    and the complete panel rendered, with no button to convert again.
    Failed, whatever threw: no blob, the error panel with the message of
    the [catch] block, and the button rendered again when a file is still
    selected.  When nothing is handled in between, the view is exactly
    one of two: complete with no error, or failed with the button. *)
Theorem run_ends_complete_or_failed env s f arrivals :
  file s = Some f ->
  pptxBlob s = None ->
  generatingPanel (view (disturbed arrivals (trace (run env s)) s)) = None /\
  ((exists b,
      outcome (trace (run env s)) = Completed b /\
      pptxBlob (disturbed arrivals (trace (run env s)) s) = Some b /\
      completePanel (view (disturbed arrivals (trace (run env s)) s)) = true /\
      convertButton (view (disturbed arrivals (trace (run env s)) s)) = false /\
      idlePanel (view (disturbed arrivals (trace (run env s)) s)) = false) \/
   (exists t,
      outcome (trace (run env s)) = Failed t /\
      pptxBlob (disturbed arrivals (trace (run env s)) s) = None /\
      completePanel (view (disturbed arrivals (trace (run env s)) s)) = false /\
      errorPanel (view (disturbed arrivals (trace (run env s)) s)) = Some errorMessage /\
      idlePanel (view (disturbed arrivals (trace (run env s)) s)) = false /\
      convertButton (view (disturbed arrivals (trace (run env s)) s))
      = bool_decide (is_Some (file (disturbed arrivals (trace (run env s)) s))))) /\
  (arrivals = [] ->
   disturbed arrivals (trace (run env s)) s = state (run env s) /\
   (view (state (run env s))
    = {| title := name f; convertButton := false; idlePanel := false;
         generatingPanel := None; completePanel := true; errorPanel := None |} \/
    view (state (run env s))
    = {| title := name f; convertButton := true; idlePanel := false;
         generatingPanel := None; completePanel := false;
         errorPanel := Some errorMessage |})).
Proof.
  intros Hf Hb.
  destruct (disturbed_ending env arrivals s f Hf Hb) as [Hg Ho].
  split; [|split].
  - unfold view. cbn [generatingPanel]. now rewrite Hg.
  - destruct (outcome (trace (run env s))) as [b|t|]; [left|right|contradiction].
    + exists b. split; [reflexivity|]. split; [exact Ho|].
      unfold view. cbn [completePanel convertButton idlePanel]. rewrite Ho, Hg.
      repeat apply conj; cbn; rewrite ?andb_false_r; reflexivity.
    + destruct Ho as [Hp He]. exists t. split; [reflexivity|]. split; [exact Hp|].
      unfold view. cbn [completePanel convertButton idlePanel errorPanel].
      rewrite Hp, Hg, He. repeat apply conj; cbn; rewrite ?andb_true_r; reflexivity.
  - intros ->. split; [exact (undisturbed env s f Hf)|].
    destruct (final_state env s f Hf) as (Hfin & Hgen & Hfile).
    destruct (outcome (trace (run env s))) as [b|t|]; [left|right|contradiction].
    + destruct Hfin as [Hp He]. unfold view. now rewrite Hfile, Hgen, Hp, He.
    + destruct Hfin as [Hp He]. unfold view. now rewrite Hfile, Hgen, Hp, He, Hb.
Qed.

Lemma run_ends_witness :
  generatingPanel
    (view (disturbed pictureDropped (trace (run Cases.okEnv Cases.slidesState))
             Cases.slidesState)) = None /\
  ((exists b,
      outcome (trace (run Cases.okEnv Cases.slidesState)) = Completed b /\
      pptxBlob (disturbed pictureDropped (trace (run Cases.okEnv Cases.slidesState))
                  Cases.slidesState) = Some b /\
      completePanel
        (view (disturbed pictureDropped (trace (run Cases.okEnv Cases.slidesState))
                 Cases.slidesState)) = true /\
      convertButton
        (view (disturbed pictureDropped (trace (run Cases.okEnv Cases.slidesState))
                 Cases.slidesState)) = false /\
      idlePanel
        (view (disturbed pictureDropped (trace (run Cases.okEnv Cases.slidesState))
                 Cases.slidesState)) = false) \/
   (exists t,
      outcome (trace (run Cases.okEnv Cases.slidesState)) = Failed t /\
      pptxBlob (disturbed pictureDropped (trace (run Cases.okEnv Cases.slidesState))
                  Cases.slidesState) = None /\
      completePanel
        (view (disturbed pictureDropped (trace (run Cases.okEnv Cases.slidesState))
                 Cases.slidesState)) = false /\
      errorPanel
        (view (disturbed pictureDropped (trace (run Cases.okEnv Cases.slidesState))
                 Cases.slidesState)) = Some errorMessage /\
      idlePanel
        (view (disturbed pictureDropped (trace (run Cases.okEnv Cases.slidesState))
                 Cases.slidesState)) = false /\
      convertButton
        (view (disturbed pictureDropped (trace (run Cases.okEnv Cases.slidesState))
                 Cases.slidesState))
      = bool_decide
          (is_Some (file (disturbed pictureDropped
                            (trace (run Cases.okEnv Cases.slidesState))
                            Cases.slidesState))))) /\
  (pictureDropped = [] ->
   disturbed pictureDropped (trace (run Cases.okEnv Cases.slidesState)) Cases.slidesState
   = state (run Cases.okEnv Cases.slidesState) /\
   (view (state (run Cases.okEnv Cases.slidesState))
    = {| title := name Cases.slidesFile; convertButton := false; idlePanel := false;
         generatingPanel := None; completePanel := true; errorPanel := None |} \/
    view (state (run Cases.okEnv Cases.slidesState))
    = {| title := name Cases.slidesFile; convertButton := true; idlePanel := false;
         generatingPanel := None; completePanel := false;
         errorPanel := Some errorMessage |})).
Proof.
  apply (run_ends_complete_or_failed Cases.okEnv Cases.slidesState Cases.slidesFile
           pictureDropped).
  - reflexivity.
  - reflexivity.
Defined.

(** X5. What [downloadPptx] offers after a run started with a file and no
    blob, whatever is handled while the run is suspended.  The file held
    at the end is the one the handled actions leave: the file converted
    when there is none.  After a completed run the blob of that run is
    offered under the name of the file held at the end, ".pdf" replaced:
    a PDF chosen during the run gives its name to the deck of the file
    converted; with no file held, nothing is offered.  After a failed
    run nothing is offered. *)
Theorem download_after_a_run env s f arrivals :
  file s = Some f ->
  pptxBlob s = None ->
  file (disturbed arrivals (trace (run env s)) s)
  = file (foldl act s (handled arrivals (trace (run env s)))) /\
  downloadPptx (disturbed arrivals (trace (run env s)) s)
  = match outcome (trace (run env s)),
          file (disturbed arrivals (trace (run env s)) s) with
    | Completed b, Some g => Some (replace ".pdf" ".pptx" (name g), b)
    | _, _ => None
    end /\
  (handled arrivals (trace (run env s)) = [] ->
   file (disturbed arrivals (trace (run env s)) s) = Some f).
Proof.
  intros Hf Hb.
  destruct (disturbed_ending env arrivals s f Hf Hb) as [_ Ho].
  split; [apply file_disturbed|]. split.
  - unfold downloadPptx.
    destruct (outcome (trace (run env s))) as [b|t|]; [| |contradiction].
    + now rewrite Ho.
    + destruct Ho as [-> _]. reflexivity.
  - intros E. now rewrite file_disturbed, E.
Qed.

Lemma download_after_a_run_witness :
  file (disturbed otherChosen (trace (run Cases.okEnv Cases.slidesState))
          Cases.slidesState)
  = file (foldl act Cases.slidesState
            (handled otherChosen (trace (run Cases.okEnv Cases.slidesState)))) /\
  downloadPptx (disturbed otherChosen (trace (run Cases.okEnv Cases.slidesState))
                  Cases.slidesState)
  = match outcome (trace (run Cases.okEnv Cases.slidesState)),
          file (disturbed otherChosen (trace (run Cases.okEnv Cases.slidesState))
                  Cases.slidesState) with
    | Completed b, Some g => Some (replace ".pdf" ".pptx" (name g), b)
    | _, _ => None
    end /\
  (handled otherChosen (trace (run Cases.okEnv Cases.slidesState)) = [] ->
   file (disturbed otherChosen (trace (run Cases.okEnv Cases.slidesState))
           Cases.slidesState) = Some Cases.slidesFile).
Proof.
  apply (download_after_a_run Cases.okEnv Cases.slidesState Cases.slidesFile
           otherChosen).
  - reflexivity.
  - reflexivity.
Defined.

(** The download of the run above: the deck of "slides.pdf" under the
    name "other.pptx". *)
Lemma other_name_on_the_deck_of_slides :
  downloadPptx (disturbed otherChosen (trace (run Cases.okEnv Cases.slidesState))
                  Cases.slidesState)
  = Some ("other.pptx", Scenario.threeLettersBlob).
Proof. vm_compute. reflexivity. Qed.

(** X6. "Reset System" after a failed run started with a file and no
    blob: the component shows the idle panel and the placeholder, with no
    button to convert, and a conversion asked for in that state does
    nothing at all: no effect, the state unchanged. *)
Theorem reset_after_a_failure env env' s f t :
  file s = Some f ->
  pptxBlob s = None ->
  outcome (trace (run env s)) = Failed t ->
  view (resetSystem (state (run env s)))
  = {| title := "pdf파일을 넣으세요"; convertButton := false; idlePanel := true;
       generatingPanel := None; completePanel := false; errorPanel := None |} /\
  run env' (resetSystem (state (run env s)))
  = {| state := resetSystem (state (run env s)); trace := [] |}.
Proof.
  intros Hf Hb Ho. destruct (final_state env s f Hf) as (Hfin & Hg & _).
  rewrite Ho in Hfin. destruct Hfin as [Hp _]. split.
  - unfold view, resetSystem. cbn. now rewrite Hg, Hp, Hb.
  - now apply run_no_file.
Qed.

Lemma reset_after_a_failure_witness :
  view (resetSystem (state (run Cases.brokenEnv Cases.slidesState)))
  = {| title := "pdf파일을 넣으세요"; convertButton := false; idlePanel := true;
       generatingPanel := None; completePanel := false; errorPanel := None |} /\
  run Cases.okEnv (resetSystem (state (run Cases.brokenEnv Cases.slidesState)))
  = {| state := resetSystem (state (run Cases.brokenEnv Cases.slidesState));
       trace := [] |}.
Proof.
  apply (reset_after_a_failure Cases.brokenEnv Cases.okEnv Cases.slidesState
           Cases.slidesFile (Rejected "RenderingCancelledException")).
  - reflexivity.
  - reflexivity.
  - vm_compute. reflexivity.
Defined.

(** X7. In every run with a file, completed or not, the values the run
    gives to [setProgress] lie between 0 and 100 and never decrease, the
    reset of line 58 included.  The progress held at the end is the last
    of them, or 0: a PDF chosen or dropped while the run is suspended
    resets it, and the run does not report again after its last page.
    When nothing is handled in between it is the last value given. *)
Theorem progress_of_any_run_is_monotone_in_range env s f arrivals :
  file s = Some f ->
  (forall (k : nat) v,
     progressCalls (trace (run env s)) !! k = Some v -> 0 <= v <= 100) /\
  (forall (a b : nat) x y, (a <= b)%nat ->
     progressCalls (trace (run env s)) !! a = Some x ->
     progressCalls (trace (run env s)) !! b = Some y ->
     x <= y) /\
  (progress (disturbed arrivals (trace (run env s)) s) = 0 \/
   last (progressCalls (trace (run env s)))
   = Some (progress (disturbed arrivals (trace (run env s)) s))) /\
  (arrivals = [] ->
   last (progressCalls (trace (run env s)))
   = Some (progress (disturbed arrivals (trace (run env s)) s))).
Proof.
  intros Hf. destruct (progressCalls_of_run env s f Hf) as (N & len & E & L).
  destruct (reset_then_percents N len _ E L) as [R M].
  split; [exact R|]. split; [exact M|]. split.
  - destruct (progress_disturbed (trace (run env s)) arrivals s) as [Z0|P]; [now left|].
    right. rewrite P.
    destruct (last (progressCalls (trace (run env s)))) as [v|] eqn:La; [reflexivity|].
    apply last_None in La. rewrite E in La. discriminate.
  - intros ->. rewrite (undisturbed env s f Hf). apply (final_progress env s f Hf).
Qed.

Lemma progress_of_any_run_witness :
  (forall (k : nat) v,
     progressCalls (trace (run Cases.okEnv Cases.slidesState)) !! k = Some v ->
     0 <= v <= 100) /\
  (forall (a b : nat) x y, (a <= b)%nat ->
     progressCalls (trace (run Cases.okEnv Cases.slidesState)) !! a = Some x ->
     progressCalls (trace (run Cases.okEnv Cases.slidesState)) !! b = Some y ->
     x <= y) /\
  (progress (disturbed chosenWhileWriting (trace (run Cases.okEnv Cases.slidesState))
               Cases.slidesState) = 0 \/
   last (progressCalls (trace (run Cases.okEnv Cases.slidesState)))
   = Some (progress (disturbed chosenWhileWriting (trace (run Cases.okEnv Cases.slidesState))
                       Cases.slidesState))) /\
  (chosenWhileWriting = [] ->
   last (progressCalls (trace (run Cases.okEnv Cases.slidesState)))
   = Some (progress (disturbed chosenWhileWriting (trace (run Cases.okEnv Cases.slidesState))
                       Cases.slidesState))).
Proof.
  apply (progress_of_any_run_is_monotone_in_range
           Cases.okEnv Cases.slidesState Cases.slidesFile chosenWhileWriting).
  reflexivity.
Defined.

(** In the run above the last value given is 100 and the progress held
    at the end is 0. *)
Lemma progress_reset_while_writing :
  last (progressCalls (trace (run Cases.okEnv Cases.slidesState))) = Some 100 /\
  progress (disturbed chosenWhileWriting (trace (run Cases.okEnv Cases.slidesState))
              Cases.slidesState) = 0.
Proof. vm_compute. split; reflexivity. Qed.



(** X9. When the browser gives no 2d context for the canvas of page k,
    and every page before it completed, the run fails with the Error made
    on line 76, "Canvas context could not be created"; page k was fetched
    but is never rendered, and no slide is added for it. *)
Theorem missing_context_fails_before_render env s f pdf k page :
  file s = Some f ->
  getDocument env (arrayBuffer f) = inr pdf ->
  1 <= k <= numPages pdf ->
  (forall j, 1 <= j < k -> exists r, pageOutcome env pdf j = inr r) ->
  getPage pdf k = inr page ->
  getContext2d env k = false ->
  outcome (trace (run env s)) = Failed (JsError "Canvas context could not be created") /\
  pagesFetched (trace (run env s)) = seqZ 1 k /\
  renderCalls (trace (run env s)) = seqZ 1 (k - 1) /\
  slidesAdded (trace (run env s)) = Z.to_nat (k - 1).
Proof.
  intros Hf Hd Hk Hbefore Hpage Hctx.
  assert (Hp : pageOutcome env pdf k = inl (JsError "Canvas context could not be created")).
  { unfold pageOutcome. now rewrite Hpage, Hctx. }
  destruct (first_fault env pdf k _ Hk Hbefore Hp) as [Hot Hlen].
  rewrite (outcome_loaded env s f pdf Hf Hd), (trace_loaded env s f pdf Hf Hd).
  destruct (outcomes env pdf (Z.to_nat (numPages pdf)) 1) as [rs ot].
  cbn [fst snd] in *. subst ot. split; [reflexivity|].
  assert (Ek : 1 + Z.of_nat (length rs) = k) by lia.
  unfold closing. rewrite Ek.
  rewrite !pagesFetched_app, !renderCalls_app, !slidesAdded_app.
  rewrite pagesFetched_loop, slidesAdded_loop.
  destruct (loop_ui_readings (numPages pdf) rs 1) as (_ & _ & ->).
  destruct (faultEffects_readings env pdf k) as (_ & _ & _ & -> & _ & _ & ->).
  destruct (fault_ui_readings env pdf k) as (_ & _ & ->).
  rewrite Hpage, Hctx, Hlen.
  cbn [opening failure pagesFetched renderCalls slidesAdded omap list_omap
         Datatypes.app length].
  rewrite !app_nil_r. rewrite Z2Nat.id by lia.
  split; [|split; [reflexivity | lia]].
  replace (seqZ 1 k) with (seqZ 1 (k - 1 + 1)) by (f_equal; lia).
  rewrite seqZ_app by lia. f_equal.
  rewrite (seqZ_cons (1 + (k - 1)) 1) by lia. rewrite seqZ_nil by lia.
  f_equal. lia.
Qed.

Lemma missing_context_witness :
  outcome (trace (run Cases.noContextAtTwo Cases.slidesState))
  = Failed (JsError "Canvas context could not be created") /\
  pagesFetched (trace (run Cases.noContextAtTwo Cases.slidesState)) = seqZ 1 2 /\
  renderCalls (trace (run Cases.noContextAtTwo Cases.slidesState)) = seqZ 1 (2 - 1) /\
  slidesAdded (trace (run Cases.noContextAtTwo Cases.slidesState)) = Z.to_nat (2 - 1).
Proof.
  apply (missing_context_fails_before_render Cases.noContextAtTwo Cases.slidesState
           Cases.slidesFile Scenario.threeLetters 2 (Scenario.letter "png-2")).
  - reflexivity.
  - reflexivity.
  - simpl. lia.
  - intros j Hj. assert (j = 1) as -> by lia. eexists. reflexivity.
  - reflexivity.
  - reflexivity.
Defined.

(** X10. How far the reported value is from the exact percentage.  In a
    run over N pages (N below 2^44) whose cycles all complete, the value
    after page i is the integer nearest to 100 * i / N, a tie going up,
    that is (200 * i + N) / (2 * N) in integer division; the only
    exception is an exact tie (100 * i / N is an integer plus one half),
    where the value may be one less. *)
Theorem progress_value_is_exact_or_one_less_at_a_tie env s f pdf i :
  file s = Some f ->
  getDocument env (arrayBuffer f) = inr pdf ->
  numPages pdf < 2 ^ 44 ->
  (forall j, 1 <= j <= numPages pdf -> exists r, pageOutcome env pdf j = inr r) ->
  1 <= i <= numPages pdf ->
  exists v,
    progressEvents (trace (run env s)) !! Z.to_nat (i - 1) = Some v /\
    (v = (200 * i + numPages pdf) / (2 * numPages pdf) \/
     ((200 * i + numPages pdf) mod (2 * numPages pdf) = 0 /\
      v = (200 * i + numPages pdf) / (2 * numPages pdf) - 1)).
Proof.
  intros Hf Hd Hb Hall Hi.
  destruct (progressEvents_loaded env s f pdf Hf Hd) as [E _].
  rewrite (outcomes_complete env pdf _ _ (outcomes_all_answer env pdf Hall)) in E.
  rewrite Z2Nat.id in E by lia. rewrite E.
  exists (percent (numPages pdf) i). split; [apply percents_lookup_page; lia|].
  apply percent_accuracy; lia.
Qed.

Lemma progress_value_witness :
  exists v,
    progressEvents (trace (run (Scenario.browser (Scenario.letters 200))
                             (Scenario.chosen "long.pdf"))) !! Z.to_nat (29 - 1) = Some v /\
    (v = (200 * 29 + numPages (Scenario.letters 200))
         / (2 * numPages (Scenario.letters 200)) \/
     ((200 * 29 + numPages (Scenario.letters 200))
        mod (2 * numPages (Scenario.letters 200)) = 0 /\
      v = (200 * 29 + numPages (Scenario.letters 200))
          / (2 * numPages (Scenario.letters 200)) - 1)).
Proof.
  apply (progress_value_is_exact_or_one_less_at_a_tie
           (Scenario.browser (Scenario.letters 200)) (Scenario.chosen "long.pdf")
           (Scenario.aFile "long.pdf") (Scenario.letters 200) 29).
  - reflexivity.
  - reflexivity.
  - reflexivity.
  - intros j _. eexists. reflexivity.
  - simpl. lia.
Defined.



(** X12. The name of the download, for every file name: when ".pdf" does
    not occur in the name (an upper-case extension, say), the name is
    kept as it is; otherwise the name splits at the first occurrence into
    a part before and a part after, and only that occurrence is replaced
    by ".pptx", the part after it kept, later occurrences included. *)
Theorem download_name_replaces_the_first_occurrence_only s b f :
  pptxBlob s = Some b ->
  file s = Some f ->
  exists n,
    downloadPptx s = Some (n, b) /\
    ((occurs ".pdf" (name f) = false /\ n = name f) \/
     (exists before after,
        name f = String.append before (String.append ".pdf" after) /\
        occursBefore ".pdf" before (String.append ".pdf" after) = false /\
        n = String.append before (String.append ".pptx" after))).
Proof.
  intros Hb Hf. unfold downloadPptx. rewrite Hb, Hf.
  exists (replace ".pdf" ".pptx" (name f)). split; [reflexivity|].
  destruct (replace_cases ".pdf" ".pptx" (name f)) as [[O R]|(a & c & E & O & R)].
  - left. now rewrite R.
  - right. exists a, c. now rewrite R.
Qed.

Lemma download_name_witness :
  exists n,
    downloadPptx {| file := Some (Scenario.aFile "SCAN.PDF"); isGenerating := false;
                    progress := 100; pptxBlob := Some Scenario.threeLettersBlob;
                    error := None |}
    = Some (n, Scenario.threeLettersBlob) /\
    ((occurs ".pdf" (name (Scenario.aFile "SCAN.PDF")) = false /\
      n = name (Scenario.aFile "SCAN.PDF")) \/
     (exists before after,
        name (Scenario.aFile "SCAN.PDF")
        = String.append before (String.append ".pdf" after) /\
        occursBefore ".pdf" before (String.append ".pdf" after) = false /\
        n = String.append before (String.append ".pptx" after))).
Proof.
  apply (download_name_replaces_the_first_occurrence_only
           {| file := Some (Scenario.aFile "SCAN.PDF"); isGenerating := false;
              progress := 100; pptxBlob := Some Scenario.threeLettersBlob;
              error := None |}
           Scenario.threeLettersBlob (Scenario.aFile "SCAN.PDF")).
  - reflexivity.
  - reflexivity.
Defined.

(** The witness of X13: the download after the conversion of "slides.pdf". *)
Lemma trailing_extension_witness :
  downloadPptx Cases.converted = Some (String.append "slides" ".pptx", Scenario.threeLettersBlob).
Proof.
  apply (downloadPptx_trailing_extension Cases.converted Cases.slidesFile
           Scenario.threeLettersBlob "slides").
  - vm_compute. reflexivity.
  - vm_compute. reflexivity.
  - reflexivity.
  - reflexivity.
Defined.

(** X14. A run does not depend on what earlier runs left behind: two
    states with the same file give the same trace, whatever their
    progress, error and blob, and end with the same generating flag,
    progress and error; when the run completes they end with the same
    blob as well.  A retry is a run from scratch. *)
Theorem run_depends_only_on_the_file env s s' f :
  file s = Some f ->
  file s' = Some f ->
  trace (run env s) = trace (run env s') /\
  isGenerating (state (run env s)) = isGenerating (state (run env s')) /\
  progress (state (run env s)) = progress (state (run env s')) /\
  error (state (run env s)) = error (state (run env s')) /\
  (forall b, outcome (trace (run env s)) = Completed b ->
     pptxBlob (state (run env s)) = pptxBlob (state (run env s'))).
Proof.
  intros Hf Hf'.
  assert (T : trace (run env s) = trace (run env s'))
    by (apply trace_by_file; congruence).
  destruct (final_state env s f Hf) as (Ho & Hg & _).
  destruct (final_state env s' f Hf') as (Ho' & Hg' & _).
  pose proof (final_progress env s f Hf) as P.
  pose proof (final_progress env s' f Hf') as P'.
  rewrite <- T in Ho', P'.
  split; [exact T|]. split; [congruence|]. split; [congruence|].
  destruct (outcome (trace (run env s))) as [b|t|]; [| |contradiction].
  - destruct Ho as [Hp He]. destruct Ho' as [Hp' He'].
    split; [congruence|]. intros b' _. congruence.
  - destruct Ho as [_ He]. destruct Ho' as [_ He'].
    split; [congruence|]. intros b' [=].
Qed.

Lemma run_depends_only_on_the_file_witness :
  trace (run Cases.brokenEnv Cases.slidesState)
  = trace (run Cases.brokenEnv (state (run Cases.brokenEnv Cases.slidesState))) /\
  isGenerating (state (run Cases.brokenEnv Cases.slidesState))
  = isGenerating (state (run Cases.brokenEnv
                           (state (run Cases.brokenEnv Cases.slidesState)))) /\
  progress (state (run Cases.brokenEnv Cases.slidesState))
  = progress (state (run Cases.brokenEnv
                       (state (run Cases.brokenEnv Cases.slidesState)))) /\
  error (state (run Cases.brokenEnv Cases.slidesState))
  = error (state (run Cases.brokenEnv
                    (state (run Cases.brokenEnv Cases.slidesState)))) /\
  (forall b, outcome (trace (run Cases.brokenEnv Cases.slidesState)) = Completed b ->
     pptxBlob (state (run Cases.brokenEnv Cases.slidesState))
     = pptxBlob (state (run Cases.brokenEnv
                          (state (run Cases.brokenEnv Cases.slidesState))))).
Proof.
  apply (run_depends_only_on_the_file Cases.brokenEnv Cases.slidesState
           (state (run Cases.brokenEnv Cases.slidesState)) Cases.slidesFile).
  - reflexivity.
  - vm_compute. reflexivity.
Defined.
